(** * charm-layer-ovn: lib/charms/ovn.py

    A shallow embedding of the OVSDB helper module: the cluster-status text
    parser ([cluster_status], [is_cluster_leader]), the control-socket target
    resolution of [ovs_appctl], and the row decoder of [SimpleOVSDB._find_tbl].

    Conventions of the embedding.
    - A Python [str] is a Rocq [string], one [ascii] per code point; the
      character classes below are those of Python on code points 0..255.
    - A raised exception is the [Raise] branch of [result]; the statements of
      a function are sequenced with the bind of that monad.
    - The external process started by [subprocess.run] is a function from the
      argument vector to its outcome ([spawn]); [json.loads] is a function
      from text to an optional document.  Both are section variables.
    - The generator returned by [_find_tbl] is a state machine: [next] runs
      the body up to the next [yield]. *)

From Stdlib Require Import ZArith Ascii String DecimalString List Bool Lia.
From stdpp Require Import base option list strings gmap.

Local Open Scope Z_scope.

(** ** Python exceptions and the error monad *)

Inductive exn : Type :=
| CalledProcessError (returncode : Z)
| FileNotFoundError
| JSONDecodeError
| TypeError
| KeyError (key : string)
| ValueError
| IndexError
| AttributeError
| UnicodeDecodeError
| PermissionError
| OSError (errno : Z).

Inductive result (A : Type) : Type :=
| Ok (a : A)
| Raise (e : exn).
Arguments Ok {A} a.
Arguments Raise {A} e.

Definition bind {A B : Type} (r : result A) (f : A -> result B) : result B :=
  match r with
  | Ok a => f a
  | Raise e => Raise e
  end.

Notation "x <- r ;;; k" := (bind r (fun x => k))
  (at level 100, r at next level, right associativity).

(** Left-to-right traversal that stops at the first exception. *)
Fixpoint mapM {A B : Type} (f : A -> result B) (l : list A) : result (list B) :=
  match l with
  | [] => Ok []
  | a :: l' => b <- f a ;;; bs <- mapM f l' ;;; Ok (b :: bs)
  end.

(** A [for] loop whose body updates one state and may raise. *)
Fixpoint foldM {A S : Type} (f : S -> A -> result S) (l : list A) (s : S)
  : result S :=
  match l with
  | [] => Ok s
  | a :: l' => s' <- f s a ;;; foldM f l' s'
  end.

(** ** The [str] methods used by the module *)

Module PyStr.

Definition code (c : ascii) : N := N_of_ascii c.

(** [str.isspace] on one character: the set used by [lstrip()] and
    [split()] without arguments. *)
Definition is_space (c : ascii) : bool :=
  let n := code c in
  ((9 <=? n) && (n <=? 13) || (28 <=? n) && (n <=? 32)
   || (n =? 133) || (n =? 160))%N.

(** The line boundaries of [str.splitlines]. *)
Definition is_linebreak (c : ascii) : bool :=
  let n := code c in
  ((10 <=? n) && (n <=? 13) || (28 <=? n) && (n <=? 30) || (n =? 133))%N.

(** [str.lower] on one character. *)
Definition lower_char (c : ascii) : ascii :=
  let n := code c in
  if ((65 <=? n) && (n <=? 90)
      || (192 <=? n) && (n <=? 222) && negb (n =? 215))%N
  then ascii_of_N (n + 32) else c.

(** Truth value of a [str]: empty is false. *)
Definition truthy (s : string) : bool :=
  match s with
  | EmptyString => false
  | String _ _ => true
  end.

Fixpoint lower (s : string) : string :=
  match s with
  | EmptyString => EmptyString
  | String c s' => String (lower_char c) (lower s')
  end.

(** [s.lstrip()] *)
Fixpoint lstrip (s : string) : string :=
  match s with
  | EmptyString => EmptyString
  | String c s' => if is_space c then lstrip s' else s
  end.

(** [s.startswith(p)] *)
Fixpoint startswith (p s : string) : bool :=
  match p, s with
  | EmptyString, _ => true
  | String a p', String b s' => Ascii.eqb a b && startswith p' s'
  | String _ _, EmptyString => false
  end.

(** [c in s] for a one-character [c]. *)
Fixpoint contains (c : ascii) (s : string) : bool :=
  match s with
  | EmptyString => false
  | String b s' => Ascii.eqb c b || contains c s'
  end.

(** [s.split(c, 1)] for a one-character separator: the text before the
    first [c] and the text after it, or the whole of [s] when [c] does not
    occur. *)
Fixpoint split1 (c : ascii) (s : string) : string * option string :=
  match s with
  | EmptyString => (EmptyString, None)
  | String b s' =>
      if Ascii.eqb c b then (EmptyString, Some s')
      else let '(h, t) := split1 c s' in (String b h, t)
  end.

(** [s.replace(a, b)] for one-character [a] and [b]. *)
Fixpoint replace (a b : ascii) (s : string) : string :=
  match s with
  | EmptyString => EmptyString
  | String c s' => String (if Ascii.eqb a c then b else c) (replace a b s')
  end.

(** [s.replace(a, '')] for a one-character [a]. *)
Fixpoint remove (a : ascii) (s : string) : string :=
  match s with
  | EmptyString => EmptyString
  | String c s' => if Ascii.eqb a c then remove a s' else String c (remove a s')
  end.

(** [s.split()]: the maximal runs of non-whitespace characters.  [cur] is
    the run being read. *)
Fixpoint split_from (cur : string) (s : string) : list string :=
  match s with
  | EmptyString => if truthy cur then [cur] else []
  | String c s' =>
      if is_space c
      then (if truthy cur then cur :: split_from EmptyString s'
            else split_from EmptyString s')
      else split_from (cur +:+ String c EmptyString) s'
  end.

Definition split (s : string) : list string := split_from EmptyString s.

(** [s.splitlines()].  [after_cr] records that the previous character was a
    carriage return, whose following line feed belongs to the same
    boundary; [cur] is the line being read. *)
Fixpoint splitlines_from (after_cr : bool) (cur : string) (s : string)
  : list string :=
  match s with
  | EmptyString => if truthy cur then [cur] else []
  | String c s' =>
      if after_cr && (code c =? 10)%N then splitlines_from false EmptyString s'
      else if is_linebreak c
           then cur :: splitlines_from (code c =? 13)%N EmptyString s'
           else splitlines_from false (cur +:+ String c EmptyString) s'
  end.

Definition splitlines (s : string) : list string :=
  splitlines_from false EmptyString s.

(** [p in s] for a string [p]: [p] begins at some position of [s]. *)
Fixpoint contains_str (p s : string) : bool :=
  startswith p s
  || match s with
     | EmptyString => false
     | String _ s' => contains_str p s'
     end.

End PyStr.

(** ** Processes *)

(** What starting a command leads to.  It ran and exited with a status, and
    what it wrote to both output streams is text in the encoding of the
    locale ([Exited]) or is not ([Garbled]); or it did not start: the
    executable was not found ([NotFound]), may not be executed
    ([NotPermitted]), or the system refused for another reason
    ([StartFailed], with the error number). *)
Inductive proc_outcome : Type :=
| Exited (returncode : Z) (output : string)
| Garbled (returncode : Z)
| NotFound
| NotPermitted
| StartFailed (errno : Z).

Record CompletedProcess : Type := { stdout : string }.

(** An element of an argument vector: a [str] or [None]. *)
Definition arg := option string.

(** The null character. *)
Definition NUL : ascii := ascii_of_N 0.

(** The conversion of the argument vector, from left to right, before
    anything is started: an argument that is not a [str] is a [TypeError],
    a [str] that holds a null character a [ValueError].  (The strings of
    this development are all encodable in the encoding of the locale.) *)
Fixpoint convert_args (args : list arg) : result (list string) :=
  match args with
  | [] => Ok []
  | None :: _ => Raise TypeError
  | Some a :: rest =>
      if PyStr.contains NUL a then Raise ValueError
      else argv <- convert_args rest ;;; Ok (a :: argv)
  end.

Definition OVS_RUNDIR : string := "/var/run/openvswitch".

(** [os.path.join(a, b)] on POSIX. *)
Definition os_path_join (a b : string) : string :=
  if PyStr.startswith "/" b then b
  else match last (list_ascii_of_string a) with
       | None => b
       | Some c => if Ascii.eqb c "/" then a +:+ b else a +:+ "/" +:+ b
       end.

(** ** The status record *)

(** The values of the dictionary built by [cluster_status]. *)
Inductive status_value : Type :=
| VStr (s : string)
| VList (l : list string)
| VTuple (t : list string).

Section Ovn.

(** The command runner of the host. *)
Variable spawn : list string -> proc_outcome.

(** [subprocess.run(args, ..., check=True, universal_newlines=True)]: the
    arguments are converted; the command is started, which raises an
    [OSError] when it cannot be ([FileNotFoundError], [PermissionError], or
    another one); its output is decoded, which raises [UnicodeDecodeError]
    when it is not text; and then the exit status is checked: a non-zero
    status is a [CalledProcessError]. *)
Definition _run (args : list arg) : result CompletedProcess :=
  match convert_args args with
  | Raise e => Raise e
  | Ok argv =>
      match spawn argv with
      | NotFound => Raise FileNotFoundError
      | NotPermitted => Raise PermissionError
      | StartFailed errno => Raise (OSError errno)
      | Garbled _ => Raise UnicodeDecodeError
      | Exited rc out =>
          if (rc =? 0) then Ok {| stdout := out |}
          else Raise (CalledProcessError rc)
      end
  end.

(** The socket that [ovs_appctl] passes after [-t]. *)
Definition resolve_target (target : string) : string :=
  if bool_decide (target ∈ ["ovnnb_db"; "ovnsb_db"])
  then os_path_join OVS_RUNDIR (target +:+ ".ctl")
  else target.

Definition ovs_appctl_cmd (target : string) (args : list arg) : list arg :=
  Some "ovs-appctl" :: Some "-t" :: Some (resolve_target target) :: args.

Definition ovs_appctl (target : string) (args : list arg) : result string :=
  cp <- _run (ovs_appctl_cmd target args) ;;; Ok (stdout cp).

(** [schema_map.get(target)] *)
Definition schema_map_get (target : string) : option string :=
  if bool_decide (target = "ovnnb_db") then Some "OVN_Northbound"
  else if bool_decide (target = "ovnsb_db") then Some "OVN_Southbound"
  else None.

(** [schema or schema_map.get(target)]: [None] and the empty string are
    false. *)
Definition schema_arg (target : string) (schema : option string) : arg :=
  match schema with
  | Some s => if PyStr.truthy s then Some s else schema_map_get target
  | None => schema_map_get target
  end.

(** The arguments after the target: the command and
    [schema or schema_map.get(target)]. *)
Definition status_args (target : string) (schema : option string) : list arg :=
  [Some "cluster/status"; schema_arg target schema].

Definition cluster_status_cmd (target : string) (schema : option string)
  : list arg :=
  ovs_appctl_cmd target (status_args target schema).

(** The loop state of [cluster_status]: the dictionary and the cursor [k]. *)
Definition parse_state : Type := gmap string status_value * string.

(** The test of the first branch: [k and line.startswith(' ')]. *)
Definition is_continuation (k line : string) : bool :=
  PyStr.truthy k && PyStr.startswith " " line.

(** [k.lower()] followed by [k.replace(' ', '_')]. *)
Definition normalise_key (k : string) : string :=
  PyStr.replace " " "_" (PyStr.lower k).

(** One iteration of the [for line in ...] loop. *)
Definition parse_line (st : parse_state) (line : string) : result parse_state :=
  let '(status, k) := st in
  if is_continuation k line then
    match status !! k with
    | None => Raise (KeyError k)
    | Some (VList l) => Ok (<[k := VList (l ++ [PyStr.lstrip line])]> status, k)
    | Some (VStr _) | Some (VTuple _) => Raise AttributeError
    end
  else if PyStr.contains ":" line then
    match PyStr.split1 ":" line with
    | (_, None) => Raise ValueError
    | (k, Some v) =>
        let k := normalise_key k in
        if PyStr.truthy v then
          if bool_decide (k ∈ ["cluster_id"; "server_id"]) then
            let v := PyStr.remove "(" v in
            let v := PyStr.remove ")" v in
            Ok (<[k := VTuple (PyStr.split v)]> status, k)
          else Ok (<[k := VStr (PyStr.lstrip v)]> status, k)
        else Ok (<[k := VList []]> status, k)
    end
  else Ok st.

Definition parse_lines (lines : list string) (st : parse_state)
  : result parse_state :=
  foldM parse_line lines st.

Definition parse_init : parse_state := (∅, EmptyString).

Definition cluster_status (target : string) (schema : option string)
  : result (gmap string status_value) :=
  out <- ovs_appctl target (status_args target schema) ;;;
  st <- parse_lines (PyStr.splitlines out) parse_init ;;;
  Ok (fst st).

(** [status.get('leader') == 'self']: a list or a tuple never equals a
    string. *)
Definition leader_is_self (status : gmap string status_value) : bool :=
  match status !! "leader" with
  | Some (VStr s) => bool_decide (s = "self")
  | _ => false
  end.

Definition is_cluster_leader (target : string) (schema : option string)
  : result bool :=
  match cluster_status target schema with
  | Ok status => Ok (leader_is_self status)
  | Raise (CalledProcessError _) => Ok false
  | Raise e => Raise e
  end.

End Ovn.

(** The test of the loop of [is_northd_active]:
    [line.startswith('Status:') and 'active' in line]. *)
Definition active_line (line : string) : bool :=
  PyStr.startswith "Status:" line && PyStr.contains_str "active" line.

(** [is_northd_active]: true at the first line that passes the test, false
    when none does or when the command exits with a non-zero status. *)
Definition is_northd_active (spawn : list string -> proc_outcome) : result bool :=
  match ovs_appctl spawn "ovn-northd" [Some "status"] with
  | Ok out => Ok (existsb active_line (PyStr.splitlines out))
  | Raise (CalledProcessError _) => Ok false
  | Raise e => Raise e
  end.

(** ** JSON documents and the rows of a table *)

(** What [json.loads] returns: [None], [bool], [int], [str], [list], [dict].
    The members of [JObj] are the items of the dictionary in insertion order,
    with distinct names.  Numbers with a fraction or an exponent are not
    represented. *)
#[warnings="-register-all"]
Inductive json : Type :=
| JNull
| JBool (b : bool)
| JInt (n : Z)
| JStr (s : string)
| JArr (items : list json)
| JObj (members : list (string * json)).

(** Dictionary keys up to Python's [==] on hashable values: [True == 1] and
    [False == 0]. *)
Inductive hkey : Type :=
| HNone
| HNum (n : Z)
| HStr (s : string).

#[global] Instance hkey_eq_dec : EqDecision hkey.
Proof. solve_decision. Defined.

(** [hash(j)]: lists and dictionaries are unhashable. *)
Definition key_norm (j : json) : option hkey :=
  match j with
  | JNull => Some HNone
  | JBool b => Some (HNum (if b then 1 else 0))
  | JInt n => Some (HNum n)
  | JStr s => Some (HStr s)
  | JArr _ | JObj _ => None
  end.

Definition key_eqb (a b : json) : bool :=
  match key_norm a, key_norm b with
  | Some x, Some y => bool_decide (x = y)
  | _, _ => false
  end.

(** A row: a [dict] as its items in insertion order. *)
Definition row : Type := list (json * json).

(** [d[k] = v]: an existing entry keeps its place and its key. *)
Fixpoint dict_set (k v : json) (d : row) : row :=
  match d with
  | [] => [(k, v)]
  | (k', v') :: d' =>
      if key_eqb k' k then (k', v) :: d' else (k', v') :: dict_set k v d'
  end.

(** [d.get(k)] *)
Fixpoint dict_get (k : json) (d : row) : option json :=
  match d with
  | [] => None
  | (k', v') :: d' => if key_eqb k' k then Some v' else dict_get k d'
  end.

Definition dict_keys (d : row) : list json := d.*1.

(** [dict(pairs)] continued from [d]: an unhashable key is a [TypeError]. *)
Fixpoint dict_from (d : row) (pairs : list (json * json)) : result row :=
  match pairs with
  | [] => Ok d
  | (k, v) :: rest =>
      match key_norm k with
      | None => Raise TypeError
      | Some _ => dict_from (dict_set k v d) rest
      end
  end.

(** [obj[key]] for a [str] key: only a dictionary can be indexed by one. *)
Definition getitem (obj : json) (key : string) : result json :=
  match obj with
  | JObj members =>
      match list_find (fun m => m.1 = key) members with
      | Some (_, (_, v)) => Ok v
      | None => Raise (KeyError key)
      end
  | _ => Raise TypeError
  end.

(** [iter(obj)] run to the end: the elements of a list, the characters of a
    string, the keys of a dictionary. *)
Definition py_iter (obj : json) : result (list json) :=
  match obj with
  | JArr items => Ok items
  | JStr s => Ok ((fun c => JStr (String c EmptyString)) <$> list_ascii_of_string s)
  | JObj members => Ok (JStr <$> members.*1)
  | JNull | JBool _ | JInt _ => Raise TypeError
  end.

(** The body of [for col in row]: [col[1]] of a list, [col] otherwise. *)
Definition decode_col (col : json) : result json :=
  match col with
  | JArr items =>
      match items !! 1%nat with
      | Some x => Ok x
      | None => Raise IndexError
      end
  | _ => Ok col
  end.

Record SimpleOVSDB : Type := { tool : string; tbl : string }.

(** The suspended generator of [_find_tbl]. *)
Inductive gen_state : Type :=
| Created (self : SimpleOVSDB) (condition : option string)
| Suspended (data : json) (rest : list json)
| Finished.

(** What [next(gen)] does: a row and the new state, [StopIteration], or an
    exception (after which the generator is finished). *)
Inductive gen_step : Type :=
| Yield (r : row) (st : gen_state)
| Stop
| Throw (e : exn).

Section Table.

Variable spawn : list string -> proc_outcome.

(** [json.loads]: the document, or [None] for text that is not JSON. *)
Variable json_loads : string -> option json.

(** The command of [_find_tbl]: the condition is appended when it is
    neither [None] nor empty. *)
Definition find_cmd (self : SimpleOVSDB) (condition : option string)
  : list arg :=
  [Some (tool self); Some "-f"; Some "json"; Some "find"; Some (tbl self)]
  ++ match condition with
     | Some c => if PyStr.truthy c then [Some c] else []
     | None => []
     end.

(** One pass through the body of [for row in data['data']], up to its
    [yield]. *)
Definition decode_row (data r : json) : result row :=
  cols <- py_iter r ;;;
  values <- mapM decode_col cols ;;;
  headings <- getitem data "headings" ;;;
  hs <- py_iter headings ;;;
  dict_from [] (combine hs values).

(** The statements before the loop, and the iterator of the loop. *)
Definition start (self : SimpleOVSDB) (condition : option string)
  : result (json * list json) :=
  cp <- _run spawn (find_cmd self condition) ;;;
  data <- match json_loads (stdout cp) with
          | Some j => Ok j
          | None => Raise JSONDecodeError
          end ;;;
  d <- getitem data "data" ;;;
  rows <- py_iter d ;;;
  Ok (data, rows).

Definition resume (data : json) (rest : list json) : gen_step :=
  match rest with
  | [] => Stop
  | r :: rest' =>
      match decode_row data r with
      | Ok d => Yield d (Suspended data rest')
      | Raise e => Throw e
      end
  end.

Definition next (st : gen_state) : gen_step :=
  match st with
  | Created self condition =>
      match start self condition with
      | Ok (data, rows) => resume data rows
      | Raise e => Throw e
      end
  | Suspended data rest => resume data rest
  | Finished => Stop
  end.

Definition _find_tbl (self : SimpleOVSDB) (condition : option string)
  : gen_state := Created self condition.

Definition __iter__ (self : SimpleOVSDB) : gen_state := _find_tbl self None.

Definition find (self : SimpleOVSDB) (condition : string) : gen_state :=
  _find_tbl self (Some condition).

(** What a consumer that calls [next] until the generator ends observes:
    the rows yielded, in order, and the exception that ended the iteration
    if one did. *)
Definition trace : Type := list row * option exn.

Fixpoint drain_rows (data : json) (rest : list json) : trace :=
  match rest with
  | [] => ([], None)
  | r :: rest' =>
      match decode_row data r with
      | Ok d => let '(ds, e) := drain_rows data rest' in (d :: ds, e)
      | Raise e => ([], Some e)
      end
  end.

Definition drain (st : gen_state) : trace :=
  match st with
  | Created self condition =>
      match start self condition with
      | Ok (data, rows) => drain_rows data rows
      | Raise e => ([], Some e)
      end
  | Suspended data rest => drain_rows data rest
  | Finished => ([], None)
  end.

End Table.

(** ** Commands that change the host *)

(** A value passed to [subprocess.run] as an argument: only a [str] is
    accepted. *)
Definition json_arg (j : json) : arg :=
  match j with
  | JStr s => Some s
  | _ => None
  end.

(** [row[key]] for a [str] key. *)
Definition row_getitem (r : row) (key : string) : result json :=
  match dict_get (JStr key) r with
  | Some v => Ok v
  | None => Raise (KeyError key)
  end.

(** [t[i]] on a tuple. *)
Definition tuple_getitem (t : list string) (i : nat) : result string :=
  match t !! i with
  | Some x => Ok x
  | None => Raise IndexError
  end.

Section Host.

(** The states of the host, and what a command does in a state: its outcome
    and the state it leaves. *)
Variable H : Type.
Variable exec : H -> list string -> proc_outcome * H.
Variable json_loads : string -> option json.

(** Computations that run commands and may raise. *)
Definition M (A : Type) : Type := H -> result A * H.

Definition ret {A : Type} (a : A) : M A := fun h => (Ok a, h).

Definition lift {A : Type} (r : result A) : M A := fun h => (r, h).

Definition bindM {A B : Type} (m : M A) (f : A -> M B) : M B :=
  fun h => match m h with
           | (Ok a, h') => f a h'
           | (Raise e, h') => (Raise e, h')
           end.

Notation "x <~ m ;;; k" := (bindM m (fun x => k))
  (at level 100, m at next level, right associativity).

(** The outcomes of the commands in state [h]. *)
Definition answers (h : H) : list string -> proc_outcome :=
  fun argv => (exec h argv).1.

(** The state after [subprocess.run(args)]: nothing runs when the
    arguments do not convert. *)
Definition after (h : H) (args : list arg) : H :=
  match convert_args args with
  | Ok argv => (exec h argv).2
  | Raise _ => h
  end.

(** [_run] on a host with state. *)
Definition run_cmd (args : list arg) : M CompletedProcess :=
  fun h => (_run (answers h) args, after h args).

(** The command of [add_br]; [if external_id:] is false for [None] and for
    the empty tuple. *)
Definition add_br_cmd (bridge : string) (external_id : option (list string))
  : list string :=
  ["ovs-vsctl"; "add-br"; bridge; "--"; "set"; "bridge"; bridge;
   "protocols=OpenFlow13"]
  ++ match external_id with
     | Some (x :: t) => ["--"; "br-set-external-id"; bridge] ++ x :: t
     | Some [] | None => []
     end.

Definition add_br (bridge : string) (external_id : option (list string))
  : M unit :=
  _ <~ run_cmd (Some <$> add_br_cmd bridge external_id) ;;; ret tt.

Definition del_br (bridge : string) : M unit :=
  _ <~ run_cmd [Some "ovs-vsctl"; Some "del-br"; Some bridge] ;;; ret tt.

Definition del_port (bridge port : string) : M unit :=
  _ <~ run_cmd [Some "ovs-vsctl"; Some "del-port"; Some bridge; Some port] ;;;
  ret tt.

Definition list_ports (bridge : string) : M (list string) :=
  cp <~ run_cmd [Some "ovs-vsctl"; Some "list-ports"; Some bridge] ;;;
  ret (PyStr.splitlines (stdout cp)).

(** The methods of [SimpleOVSDB] that write. *)
Definition clear (self : SimpleOVSDB) (rec col : arg) : M unit :=
  _ <~ run_cmd [Some (tool self); Some "clear"; Some (tbl self); rec; col] ;;;
  ret tt.

Definition remove (self : SimpleOVSDB) (rec col value : arg) : M unit :=
  _ <~ run_cmd [Some (tool self); Some "remove"; Some (tbl self); rec; col; value] ;;;
  ret tt.

(** ['{}={}'.format(col, value)] on two strings. *)
Definition set_cmd (self : SimpleOVSDB) (rec : arg) (col value : string)
  : list arg :=
  [Some (tool self); Some "set"; Some (tbl self); rec; Some (col +:+ "=" +:+ value)].

Definition set (self : SimpleOVSDB) (rec : arg) (col value : string) : M unit :=
  _ <~ run_cmd (set_cmd self rec col value) ;;; ret tt.

(** [next(gen)] on a host with state: only the first call runs a command. *)
Definition gen_next (g : gen_state) : H -> gen_step * H :=
  fun h => (next (answers h) json_loads g,
            match g with
            | Created self condition => after h (find_cmd self condition)
            | Suspended _ _ | Finished => h
            end).

(** [for r in gen: body(r)] on the rows that are left. *)
Fixpoint for_rows (data : json) (rest : list json) (body : row -> M unit)
  : M unit :=
  match rest with
  | [] => ret tt
  | r :: rest' =>
      match decode_row data r with
      | Ok d => _ <~ body d ;;; for_rows data rest' body
      | Raise e => lift (Raise e)
      end
  end.

(** [for r in gen: body(r)] *)
Definition for_gen (g : gen_state) (body : row -> M unit) : M unit :=
  match g with
  | Created self condition =>
      fun h =>
        match start (answers h) json_loads self condition with
        | Ok (data, rows) =>
            for_rows data rows body (after h (find_cmd self condition))
        | Raise e => (Raise e, after h (find_cmd self condition))
        end
  | Suspended data rest => for_rows data rest body
  | Finished => ret tt
  end.

(** The body of the loop of [add_port]. *)
Definition set_external_id (ports : SimpleOVSDB) (external_id : list string)
  (port : row) : M unit :=
  rec <~ lift (row_getitem port "_uuid") ;;;
  k <~ lift (tuple_getitem external_id 0) ;;;
  v <~ lift (tuple_getitem external_id 1) ;;;
  set ports (json_arg rec) ("external_ids:" +:+ k) v.

Definition add_port (bridge port : string) (external_id : option (list string))
  : M unit :=
  _ <~ run_cmd [Some "ip"; Some "link"; Some "set"; Some port; Some "up"] ;;;
  _ <~ run_cmd [Some "ovs-vsctl"; Some "add-port"; Some bridge; Some port] ;;;
  match external_id with
  | Some (x :: t) =>
      let ports := {| tool := "ovs-vsctl"; tbl := "port" |} in
      for_gen (find ports ("name=" +:+ port)) (set_external_id ports (x :: t))
  | Some [] | None => ret tt
  end.

End Host.

Arguments ret {H A} a.
Arguments lift {H A} r.
Arguments bindM {H A B} m f.
Arguments answers {H} exec h.
Arguments after {H} exec h args.
Arguments run_cmd {H} exec args.
Arguments add_br {H} exec bridge external_id.
Arguments del_br {H} exec bridge.
Arguments del_port {H} exec bridge port.
Arguments list_ports {H} exec bridge.
Arguments clear {H} exec self rec col.
Arguments remove {H} exec self rec col value.
Arguments set {H} exec self rec col value.
Arguments gen_next {H} exec json_loads g.
Arguments for_rows {H} data rest body.
Arguments for_gen {H} exec json_loads g body.
Arguments set_external_id {H} exec ports external_id port.
Arguments add_port {H} exec json_loads bridge port external_id.

(** * The vocabulary of the statements *)

(** ** Hosts and texts *)

(** A line feed and a horizontal tab. *)
Definition LF : string := String (ascii_of_N 10) EmptyString.
Definition TAB : string := String (ascii_of_N 9) EmptyString.

(** A host on which every command prints [out] and exits with status 0. *)
Definition prints (out : string) : list string -> proc_outcome :=
  fun _ => Exited 0 out.

(** A host on which every command exits with status [rc]. *)
Definition exits (rc : Z) : list string -> proc_outcome :=
  fun _ => Exited rc EmptyString.


(** The double quote. *)
Definition DQ : string := String (ascii_of_N 34) EmptyString.

(** Elements separated by commas. *)
Fixpoint commas (items : list string) : string :=
  match items with
  | [] => EmptyString
  | [x] => x
  | x :: rest => x +:+ "," +:+ commas rest
  end.

(** The JSON text of a document whose strings need no escape. *)
Fixpoint json_text (j : json) : string :=
  match j with
  | JNull => "null"
  | JBool b => if b then "true" else "false"
  | JInt n => NilZero.string_of_int (Z.to_int n)
  | JStr s => DQ +:+ s +:+ DQ
  | JArr items => "[" +:+ commas (map json_text items) +:+ "]"
  | JObj members =>
      "{" +:+ commas (map (fun m => DQ +:+ m.1 +:+ DQ +:+ ":" +:+ json_text m.2)
                          members) +:+ "}"
  end.

(** A parser that reads the text of [doc] as [doc], and nothing else. *)
Definition reads (doc : json) : string -> option json :=
  fun text => if bool_decide (text = json_text doc) then Some doc else None.

(** ** Shapes of strings and of raw values *)

(** A run of whitespace. *)
Fixpoint blank (s : string) : bool :=
  match s with
  | EmptyString => true
  | String c s' => PyStr.is_space c && blank s'
  end.

(** A run without whitespace and without parentheses. *)
Fixpoint plain (s : string) : bool :=
  match s with
  | EmptyString => true
  | String c s' =>
      negb (PyStr.is_space c) && negb (Ascii.eqb "(" c) && negb (Ascii.eqb ")" c)
      && plain s'
  end.

(** A JSON scalar. *)
Definition is_scalar (v : json) : bool :=
  match v with
  | JNull | JBool _ | JInt _ | JStr _ => true
  | JArr _ | JObj _ => false
  end.

(** A raw value that [decode_col] accepts: anything but a list of fewer than
    two elements. *)
Definition has_payload (v : json) : bool :=
  match v with
  | JArr items => bool_decide (2 <= length items)%nat
  | _ => true
  end.

(** ** Dictionaries and observations *)

(** The dictionary after the assignments [pairs], in order. *)
Fixpoint dict_update (d : row) (pairs : list (json * json)) : row :=
  match pairs with
  | [] => d
  | (k, v) :: rest => dict_update (dict_set k v d) rest
  end.

(** The statement of C3 on what a consumer observes: no exception, or no
    row. *)
Definition all_or_nothing (t : list row * option exn) : Prop :=
  t.2 = None \/ t.1 = [].

(** The outputs on which the rows cannot fail to decode: when the document
    has a [data] member, that member is a list of lists whose list values
    have two elements or more, and [headings] is a list of strings. *)
Definition rows_well_formed (doc : json) : Prop :=
  forall d, getitem doc "data" = Ok d ->
    exists (headings : list string) (data : list (list json)),
      getitem doc "headings" = Ok (JArr (JStr <$> headings))
      /\ d = JArr (JArr <$> data)
      /\ Forall (Forall (fun v => has_payload v = true)) data.

(** The reports of C10: after the lines [pre], which parse, [line] sets the
    field [key] to the non-empty remainder [v]; the lines [mid] hold no
    colon; [cont] begins with a space. *)
Definition stray_continuation
  (out : string) (pre : list string) (line key v : string)
  (mid : list string) (cont : string) (post : list string) : Prop :=
  PyStr.splitlines out = pre ++ line :: mid ++ cont :: post
  /\ (exists st, parse_lines pre parse_init = Ok st
                 /\ is_continuation st.2 line = false)
  /\ PyStr.split1 ":" line = (key, Some v)
  /\ v <> EmptyString
  /\ Forall (fun l => PyStr.contains ":" l = false) mid
  /\ PyStr.startswith " " cont = true.

(** ** The claims that fail, as they are stated *)


(** The last sentence of C8: a schema passed by the caller is the schema
    passed to [ovs-appctl], whatever the target. *)
Definition explicit_schema_overrides : Prop :=
  forall target s, schema_arg target (Some s) = Some s.

(** The statement of C6 on the lines that follow [Servers:]: every line that
    begins with whitespace is appended, stripped, to the list. *)
Definition whitespace_lines_accumulate : Prop :=
  forall conts,
    Forall (fun c => exists a rest, c = String a rest /\ PyStr.is_space a = true)
           conts ->
    exists st, parse_lines ("Servers:" :: conts) parse_init = Ok st
               /\ st.1 !! "servers" = Some (VList (PyStr.lstrip <$> conts)).

(** The statement of C7 on the identifier keys: a non-empty remainder is
    stored as a 2-tuple. *)
Definition id_fields_are_pairs : Prop :=
  forall line key v,
    PyStr.split1 ":" line = (key, Some v) -> v <> EmptyString ->
    normalise_key key ∈ ["cluster_id"; "server_id"] ->
    exists st value shortform,
      parse_line parse_init line = Ok st
      /\ st.1 !! normalise_key key = Some (VTuple [value; shortform]).

(** The statement of C10: on such a report [cluster_status] raises. *)
Definition stray_continuation_raises : Prop :=
  forall spawn target schema out pre line key v mid cont post,
    ovs_appctl spawn target (status_args target schema) = Ok out ->
    stray_continuation out pre line key v mid cont post ->
    exists e, cluster_status spawn target schema = Raise e.

(** ** Documents *)

(** The document of the scenario of C2:
    [{"headings":["name","_uuid"],"data":[["br-int",["uuid","1234"]]]}]. *)
Definition br_int_output : json :=
  JObj [("headings", JArr [JStr "name"; JStr "_uuid"]);
        ("data", JArr [JArr [JStr "br-int"; JArr [JStr "uuid"; JStr "1234"]]])].

(** The output of [ovs-vsctl -f json find port] on a bridge with two ports. *)
Definition two_ports : json :=
  JObj [("data", JArr [JArr [JArr [JStr "uuid"; JStr "0a1b"]; JStr "eth0";
                             JArr [JStr "set"; JArr []]];
                       JArr [JArr [JStr "uuid"; JStr "2c3d"]; JStr "eth1";
                             JArr [JStr "set"; JArr [JInt 10; JInt 20]]]]);
        ("headings", JArr [JStr "_uuid"; JStr "name"; JStr "trunks"])].

(** An output whose second row holds a list of one element. *)
Definition short_pair_in_second_row : json :=
  JObj [("headings", JArr [JStr "name"; JStr "_uuid"]);
        ("data", JArr [JArr [JStr "br-int"; JArr [JStr "uuid"; JStr "1234"]];
                       JArr [JStr "br-ex"; JArr [JStr "uuid"]]])].

(** ** The vocabulary of the further properties *)

(** The cursor of the loop is empty or names a field. *)
Definition cursor_set (st : parse_state) : Prop :=
  st.2 = EmptyString \/ is_Some (st.1 !! st.2).

(** What [normalise_key] does to one character. *)
Definition normalise_char (c : ascii) : ascii :=
  let c := PyStr.lower_char c in
  if Ascii.eqb " " c then "_"%char else c.

(** A key in normal form: no space, and unchanged by [lower()]. *)
Definition normal_key (k : string) : Prop :=
  PyStr.contains " " k = false /\ PyStr.lower k = k.

(** The cursor and the names of the fields are in normal form. *)
Definition keys_normal (st : parse_state) : Prop :=
  normal_key st.2 /\ forall k, is_Some (st.1 !! k) -> normal_key k.

(** A string without parentheses. *)
Fixpoint no_paren (s : string) : bool :=
  match s with
  | EmptyString => true
  | String c s' => negb (Ascii.eqb "(" c) && negb (Ascii.eqb ")" c) && no_paren s'
  end.

(** What a field may hold under the key [k]: a string or the items of a list
    never begin with whitespace; a tuple stands under an identifier key, and
    its components are non-empty and hold neither whitespace nor a
    parenthesis. *)
Definition value_ok (k : string) (v : status_value) : Prop :=
  match v with
  | VStr s => PyStr.lstrip s = s
  | VList l => Forall (fun x => PyStr.lstrip x = x) l
  | VTuple t =>
      k ∈ ["cluster_id"; "server_id"]
      /\ Forall (fun x => plain x = true /\ x <> EmptyString) t
  end.

(** No line of [lines] sets the field [j]. *)
Definition never_sets (j : string) (lines : list string) : Prop :=
  Forall (fun line => forall key v,
            PyStr.split1 ":" line = (key, Some v) -> normalise_key key <> j)
         lines.

(** The command of [is_northd_active]. *)
Definition northd_status_argv : list string :=
  ["ovs-appctl"; "-t"; "ovn-northd"; "status"].

(** A text without line boundary. *)
Fixpoint one_line (s : string) : bool :=
  match s with
  | EmptyString => true
  | String c s' => negb (PyStr.is_linebreak c) && one_line s'
  end.

(** An output whose third row is cut short inside a tagged value. *)
Definition short_pair_in_third_row : json :=
  JObj [("headings", JArr [JStr "name"; JStr "_uuid"]);
        ("data", JArr [JArr [JStr "br-int"; JArr [JStr "uuid"; JStr "1234"]];
                       JArr [JStr "br-ex"; JArr [JStr "uuid"; JStr "5678"]];
                       JArr [JStr "br-tun"; JArr [JStr "uuid"]];
                       JArr [JStr "br-phy"; JArr [JStr "uuid"; JStr "9abc"]]])].

(** A string without null character: one that [subprocess.run] accepts as an
    argument. *)
Definition nul_free (s : string) : bool := negb (PyStr.contains NUL s).

(** A host that also keeps the list of the commands it was asked to run. *)
Definition logging {H : Type} (exec : H -> list string -> proc_outcome * H)
  : H * list (list string) -> list string -> proc_outcome * (H * list (list string)) :=
  fun hl argv => ((exec hl.1 argv).1, ((exec hl.1 argv).2, hl.2 ++ [argv])).


(** The commands of [add_port]. *)
Definition link_up_argv (port : string) : list string :=
  ["ip"; "link"; "set"; port; "up"].

Definition add_port_argv (bridge port : string) : list string :=
  ["ovs-vsctl"; "add-port"; bridge; port].

Definition find_port_argv (port : string) : list string :=
  ["ovs-vsctl"; "-f"; "json"; "find"; "port"; "name=" +:+ port].


(** The table of ports. *)
Definition ports_table : SimpleOVSDB := {| tool := "ovs-vsctl"; tbl := "port" |}.


(** A host without state, and a host that refuses the program [prog]. *)
Definition stateless (spawn : list string -> proc_outcome)
  : unit -> list string -> proc_outcome * unit :=
  fun h argv => (spawn argv, h).

Definition refuses (prog : string) : list string -> proc_outcome :=
  fun argv =>
    match argv with
    | p :: _ => if bool_decide (p = prog) then Exited 1 EmptyString
                else Exited 0 EmptyString
    | [] => Exited 0 EmptyString
    end.

(** * Properties *)

(** ** Strings *)

Module PyStrFacts.
Import PyStr.

Lemma sapp_nil_l (s : string) : EmptyString +:+ s = s.
Proof. reflexivity. Qed.

Lemma sapp_cons (c : ascii) (s t : string) :
  String c s +:+ t = String c (s +:+ t).
Proof. reflexivity. Qed.

(** [String.append] does not unfold under [simpl]; its two equations are
    applied by rewriting. *)
Ltac str_simpl := repeat (rewrite ?sapp_cons, ?sapp_nil_l; simpl).

Lemma sapp_nil_r (s : string) : s +:+ EmptyString = s.
Proof. induction s as [|c s IH]; str_simpl; [reflexivity | now rewrite IH]. Qed.

Lemma sapp_assoc (a b c : string) : (a +:+ b) +:+ c = a +:+ (b +:+ c).
Proof. induction a as [|x a IH]; str_simpl; [reflexivity | now rewrite IH]. Qed.

Lemma truthy_true (s : string) : s <> EmptyString -> truthy s = true.
Proof. destruct s; [congruence | reflexivity]. Qed.

Lemma space_not_paren (c : ascii) :
  is_space c = true -> Ascii.eqb "(" c = false /\ Ascii.eqb ")" c = false.
Proof.
  destruct c as [[] [] [] [] [] [] [] []]; vm_compute; intros H;
    first [discriminate H | split; reflexivity].
Qed.

Lemma remove_app (a : ascii) (s t : string) :
  remove a (s +:+ t) = remove a s +:+ remove a t.
Proof.
  induction s as [|c s IH]; str_simpl; [reflexivity|].
  destruct (Ascii.eqb a c); str_simpl; now rewrite IH.
Qed.

Lemma remove_blank (s : string) :
  blank s = true -> remove "(" s = s /\ remove ")" s = s.
Proof.
  induction s as [|c s IH]; cbn [remove blank]; [auto|].
  intros [Hc Hs]%andb_prop. destruct (space_not_paren c Hc) as [-> ->].
  destruct (IH Hs) as [-> ->]. auto.
Qed.

Lemma remove_plain (s : string) :
  plain s = true -> remove "(" s = s /\ remove ")" s = s.
Proof.
  induction s as [|c s IH]; cbn [remove plain]; [auto|].
  intros [[[_ Ho]%andb_prop Hc]%andb_prop Hs]%andb_prop.
  apply negb_true_iff in Ho, Hc. rewrite Ho, Hc.
  destruct (IH Hs) as [-> ->]. auto.
Qed.

Lemma split_from_blank (pad s : string) :
  blank pad = true -> split_from EmptyString (pad +:+ s) = split_from EmptyString s.
Proof.
  induction pad as [|c pad IH]; str_simpl; [reflexivity|].
  intros [-> Hp]%andb_prop. auto.
Qed.

Lemma split_from_plain (tok cur s : string) :
  plain tok = true -> split_from cur (tok +:+ s) = split_from (cur +:+ tok) s.
Proof.
  revert cur. induction tok as [|c tok IH]; intros cur; str_simpl.
  - now rewrite sapp_nil_r.
  - intros [[[Hsp _]%andb_prop _]%andb_prop Ht]%andb_prop.
    apply negb_true_iff in Hsp. rewrite Hsp, IH by assumption.
    now rewrite sapp_assoc.
Qed.

(** The whitespace after a token closes it. *)
Lemma split_from_gap (cur gap s : string) :
  truthy cur = true -> truthy gap = true -> blank gap = true ->
  split_from cur (gap +:+ s) = cur :: split_from EmptyString s.
Proof.
  intros Hcur Hgap Hb. destruct gap as [|c gap]; [discriminate|].
  str_simpl. simpl in Hb. apply andb_prop in Hb as [-> Hb]. rewrite Hcur.
  f_equal. now apply split_from_blank.
Qed.

(** The documented form [value (shortform)] splits into its two parts. *)
Lemma split_value_shortform (pad value gap short : string) :
  blank pad = true -> plain value = true -> truthy value = true ->
  blank gap = true -> truthy gap = true ->
  plain short = true -> truthy short = true ->
  split (remove ")" (remove "("
           (pad +:+ value +:+ gap +:+ "(" +:+ short +:+ ")")))
  = [value; short].
Proof.
  intros Hpad Hv Hvt Hgap Hgt Hs Hst.
  destruct (remove_blank _ Hpad) as [Hp1 Hp2].
  destruct (remove_blank _ Hgap) as [Hg1 Hg2].
  destruct (remove_plain _ Hv) as [Hv1 Hv2].
  destruct (remove_plain _ Hs) as [Hs1 Hs2].
  rewrite !remove_app, Hp1, Hv1, Hg1, Hs1. simpl remove.
  rewrite Hp2, Hv2, Hg2, Hs2, sapp_nil_l, sapp_nil_r. unfold split.
  rewrite split_from_blank by assumption.
  rewrite (split_from_plain value) by assumption. rewrite sapp_nil_l.
  rewrite split_from_gap by assumption. f_equal.
  transitivity (split_from EmptyString (short +:+ EmptyString)).
  { now rewrite sapp_nil_r. }
  rewrite (split_from_plain short) by assumption. rewrite sapp_nil_l.
  simpl. now rewrite Hst.
Qed.

Lemma split1_contains (c : ascii) (s h t : string) :
  split1 c s = (h, Some t) -> contains c s = true.
Proof.
  revert h. induction s as [|b s IH]; simpl; intros h; [discriminate|].
  destruct (Ascii.eqb c b); [reflexivity|].
  destruct (split1 c s) as [h' [t'|]] eqn:E; intros [= <- <-].
  simpl. eauto.
Qed.

Lemma contains_split1 (c : ascii) (s : string) :
  contains c s = true -> exists h t, split1 c s = (h, Some t).
Proof.
  induction s as [|b s IH]; simpl; [discriminate|].
  destruct (Ascii.eqb c b); [eauto|]. simpl.
  intros [h [t ->]]%IH. eauto.
Qed.

Lemma replace_nil (a b : ascii) (s : string) :
  replace a b s = EmptyString -> s = EmptyString.
Proof. destruct s; [reflexivity | discriminate]. Qed.

Lemma lower_nil (s : string) : lower s = EmptyString -> s = EmptyString.
Proof. destruct s; [reflexivity | discriminate]. Qed.

End PyStrFacts.

(** ** The status parser *)

Section ParserFacts.
Import PyStr PyStrFacts.

Lemma foldM_app {A S : Type} (f : S -> A -> result S) (l1 l2 : list A) (s : S) :
  foldM f (l1 ++ l2) s = (s' <- foldM f l1 s ;;; foldM f l2 s').
Proof.
  revert s. induction l1 as [|a l1 IH]; intros s; simpl; [reflexivity|].
  destruct (f s a); simpl; auto.
Qed.

Lemma normalise_key_nil (key : string) :
  normalise_key key = EmptyString -> key = EmptyString.
Proof. intros H. now apply lower_nil, (replace_nil " " "_"). Qed.

(** The second branch of the loop body, taken by a line that holds a colon
    and is not a continuation. *)
Lemma parse_line_field status k0 line key v :
  is_continuation k0 line = false ->
  split1 ":" line = (key, Some v) ->
  parse_line (status, k0) line =
    let k := normalise_key key in
    Ok (<[k := if truthy v
               then if bool_decide (k ∈ ["cluster_id"; "server_id"])
                    then VTuple (split (remove ")" (remove "(" v)))
                    else VStr (lstrip v)
               else VList []]> status, k).
Proof.
  intros Hc Hs. unfold parse_line. rewrite Hc.
  rewrite (split1_contains _ _ _ _ Hs), Hs. cbv zeta.
  destruct (truthy v); [|reflexivity].
  destruct (bool_decide _); reflexivity.
Qed.

(** A line without a colon that is not a continuation changes nothing. *)
Lemma parse_line_ignored st line :
  is_continuation st.2 line = false -> contains ":" line = false ->
  parse_line st line = Ok st.
Proof.
  destruct st as [status k]. simpl. intros Hc Hn.
  unfold parse_line. now rewrite Hc, Hn.
Qed.

Lemma parse_lines_cons line lines st :
  parse_lines (line :: lines) st
  = (st' <- parse_line st line ;;; parse_lines lines st').
Proof. reflexivity. Qed.

(** The first branch appends to a list. *)
Lemma parse_line_append status k l line :
  k <> EmptyString -> startswith " " line = true ->
  status !! k = Some (VList l) ->
  parse_line (status, k) line = Ok (<[k := VList (l ++ [lstrip line])]> status, k).
Proof.
  intros Hk Hs Hl. unfold parse_line, is_continuation.
  now rewrite (truthy_true _ Hk), Hs, Hl.
Qed.

Lemma parse_lines_append status k acc conts :
  k <> EmptyString ->
  Forall (fun c => startswith " " c = true) conts ->
  parse_lines conts (<[k := VList acc]> status, k)
  = Ok (<[k := VList (acc ++ (lstrip <$> conts))]> status, k).
Proof.
  intros Hk Hall. revert acc.
  induction Hall as [|c conts Hc _ IH]; intros acc.
  - cbn. now rewrite List.app_nil_r.
  - rewrite parse_lines_cons.
    rewrite (parse_line_append _ _ acc) by (assumption || apply lookup_insert_eq).
    cbn [bind]. rewrite insert_insert_eq, IH, fmap_cons.
    now rewrite <- List.app_assoc.
Qed.

(** A continuation of a field that holds a string or a tuple: [append] is
    not an attribute of either. *)
Lemma parse_line_no_append status k line :
  k <> EmptyString -> startswith " " line = true ->
  (exists s, status !! k = Some (VStr s)) \/ (exists t, status !! k = Some (VTuple t)) ->
  parse_line (status, k) line = Raise AttributeError.
Proof.
  intros Hk Hs Hv. unfold parse_line, is_continuation.
  rewrite (truthy_true _ Hk), Hs. simpl.
  destruct Hv as [[s ->]|[t ->]]; reflexivity.
Qed.

Lemma parse_lines_no_append status k mid cont post :
  k <> EmptyString ->
  (exists s, status !! k = Some (VStr s)) \/ (exists t, status !! k = Some (VTuple t)) ->
  Forall (fun l => contains ":" l = false) mid ->
  startswith " " cont = true ->
  parse_lines (mid ++ cont :: post) (status, k) = Raise AttributeError.
Proof.
  intros Hk Hv Hmid Hcont.
  induction Hmid as [|l mid Hl _ IH];
    rewrite ?List.app_nil_l, <- ?List.app_comm_cons, parse_lines_cons.
  - now rewrite parse_line_no_append.
  - destruct (startswith " " l) eqn:Hs.
    + now rewrite parse_line_no_append.
    + rewrite parse_line_ignored; [exact IH | | exact Hl].
      unfold is_continuation. cbn [snd]. rewrite Hs. apply andb_false_r.
Qed.

End ParserFacts.

(** The unpacking [k, v = line.split(':', 1)] never fails: it runs only on
    a line that holds a colon. *)
Lemma parse_line_unpacks st line : parse_line st line <> Raise ValueError.
Proof.
  destruct st as [status k]. unfold parse_line.
  destruct (is_continuation k line).
  - destruct (status !! k) as [[| |]|]; discriminate.
  - destruct (PyStr.contains ":" line) eqn:Hc; [|discriminate].
    destruct (PyStrFacts.contains_split1 _ _ Hc) as (h & t & ->).
    cbv zeta. destruct (PyStr.truthy t); [|discriminate].
    destruct (bool_decide _); discriminate.
Qed.

(** ** Dictionaries *)

Section DictFacts.

Lemma key_eqb_sym a b : key_eqb a b = key_eqb b a.
Proof.
  unfold key_eqb. destruct (key_norm a), (key_norm b); try reflexivity.
  apply bool_decide_ext. split; congruence.
Qed.

Lemma key_eqb_trans a b c :
  key_eqb a b = true -> key_eqb b c = true -> key_eqb a c = true.
Proof.
  unfold key_eqb.
  destruct (key_norm a), (key_norm b), (key_norm c); try discriminate.
  intros ->%bool_decide_eq_true. auto.
Qed.

Lemma key_eqb_refl k : key_norm k <> None -> key_eqb k k = true.
Proof.
  unfold key_eqb. destruct (key_norm k); [|congruence].
  intros _. now apply bool_decide_eq_true.
Qed.

(** A key equal to a string is that string. *)
Lemma key_eqb_str k s : key_eqb k (JStr s) = true -> k = JStr s.
Proof.
  unfold key_eqb. destruct k as [|b|n|s'|items|members]; simpl;
    try discriminate; intros H%bool_decide_eq_true; congruence.
Qed.

Lemma dict_get_set k k' v d :
  dict_get k (dict_set k' v d)
  = if key_eqb k' k then Some v else dict_get k d.
Proof.
  induction d as [|[k0 v0] d IH]; simpl; [reflexivity|].
  destruct (key_eqb k0 k') eqn:E0; simpl.
  - destruct (key_eqb k' k) eqn:E1.
    + now rewrite (key_eqb_trans _ _ _ E0 E1).
    + destruct (key_eqb k0 k) eqn:E2; [|reflexivity].
      rewrite key_eqb_sym in E0.
      now rewrite (key_eqb_trans _ _ _ E0 E2) in E1.
  - rewrite IH. destruct (key_eqb k0 k) eqn:E2; [|reflexivity].
    destruct (key_eqb k' k) eqn:E1; [|reflexivity].
    rewrite key_eqb_sym in E1.
    now rewrite (key_eqb_trans _ _ _ E2 E1) in E0.
Qed.

Lemma dict_keys_set_str s v d k :
  k ∈ dict_keys (dict_set (JStr s) v d) <-> k = JStr s \/ k ∈ dict_keys d.
Proof.
  unfold dict_keys. induction d as [|[k0 v0] d IH]; simpl.
  - rewrite elem_of_cons, elem_of_nil. tauto.
  - destruct (key_eqb k0 (JStr s)) eqn:E; simpl.
    + apply key_eqb_str in E as ->. rewrite elem_of_cons. tauto.
    + rewrite !elem_of_cons, IH. tauto.
Qed.

Lemma dict_from_str d (hs : list string) (vals : list json) :
  dict_from d (combine (JStr <$> hs) vals)
  = Ok (dict_update d (combine (JStr <$> hs) vals)).
Proof.
  revert d vals. induction hs as [|h hs IH]; intros d [|v vals]; simpl; auto.
Qed.

Lemma dict_keys_update_str d (hs : list string) (vals : list json) k :
  length vals = length hs ->
  k ∈ dict_keys (dict_update d (combine (JStr <$> hs) vals))
  <-> k ∈ (JStr <$> hs) \/ k ∈ dict_keys d.
Proof.
  revert d vals. induction hs as [|h hs IH]; intros d [|v vals] Hlen;
    try discriminate; simpl.
  - rewrite elem_of_nil. tauto.
  - injection Hlen as Hlen. rewrite (IH _ _ Hlen), dict_keys_set_str.
    rewrite elem_of_cons. tauto.
Qed.

Lemma dict_get_update_other k d pairs :
  Forall (fun p => key_eqb p.1 k = false) pairs ->
  dict_get k (dict_update d pairs) = dict_get k d.
Proof.
  intros H. revert d. induction H as [|[k' v'] pairs Hk _ IH]; intros d; simpl.
  - reflexivity.
  - simpl in Hk. now rewrite IH, dict_get_set, Hk.
Qed.

(** The last assignment to a key is the one that is read. *)
Lemma dict_get_update_last k x d pairs (j : nat) :
  key_norm k <> None ->
  pairs !! j = Some (k, x) ->
  (forall j' p, (j < j')%nat -> pairs !! j' = Some p -> key_eqb p.1 k = false) ->
  dict_get k (dict_update d pairs) = Some x.
Proof.
  intros Hk. revert d j. induction pairs as [|[k' v'] pairs IH]; intros d j Hj Hlast.
  - discriminate.
  - destruct j as [|j]; simpl in *.
    + injection Hj as -> ->.
      rewrite dict_get_update_other, dict_get_set, key_eqb_refl; auto.
      apply Forall_lookup. intros i p Hp. apply (Hlast (S i) p); [lia | exact Hp].
    + apply (IH _ j Hj). intros j' p Hlt Hp.
      apply (Hlast (S j') p); [lia | exact Hp].
Qed.

End DictFacts.

(** ** The row decoder *)

Section TableFacts.

Variable spawn : list string -> proc_outcome.
Variable json_loads : string -> option json.

(** [drain] is what repeated calls of [next] observe. *)
Lemma drain_next st :
  match next spawn json_loads st with
  | Yield r st' =>
      drain spawn json_loads st
      = (r :: (drain spawn json_loads st').1, (drain spawn json_loads st').2)
  | Stop => drain spawn json_loads st = ([], None)
  | Throw e => drain spawn json_loads st = ([], Some e)
  end.
Proof.
  assert (Hres : forall data rest,
             match resume data rest with
             | Yield r st' =>
                 drain_rows data rest
                 = (r :: (drain spawn json_loads st').1,
                    (drain spawn json_loads st').2)
             | Stop => drain_rows data rest = ([], None)
             | Throw e => drain_rows data rest = ([], Some e)
             end).
  { intros data [|r rest]; simpl; [reflexivity|].
    destruct (decode_row data r); simpl; [|reflexivity].
    now destruct (drain_rows data rest). }
  destruct st as [self condition|data rest|]; simpl; [|apply Hres|reflexivity].
  destruct (start spawn json_loads self condition) as [[data rows]|e];
    [apply Hres | reflexivity].
Qed.

Lemma mapM_decode_col raw :
  Forall (fun v => has_payload v = true) raw ->
  exists vals, mapM decode_col raw = Ok vals
               /\ Forall2 (fun v x => decode_col v = Ok x) raw vals.
Proof.
  induction 1 as [|v raw Hv _ [vals [Hm Hf]]]; simpl.
  - exists []. split; [reflexivity | constructor].
  - assert (exists x, decode_col v = Ok x) as [x Hx].
    { destruct v as [| | | |items|]; simpl; eauto.
      simpl in Hv. apply bool_decide_eq_true in Hv.
      destruct items as [|a [|b items]]; simpl in *; [lia | lia | eauto]. }
    exists (x :: vals). rewrite Hx, Hm. simpl. split; [reflexivity|].
    now constructor.
Qed.

(** A row of acceptable values under string headings decodes to the
    dictionary of the headings paired with the decoded values. *)
Lemma decode_row_ok doc (headings : list string) raw :
  getitem doc "headings" = Ok (JArr (JStr <$> headings)) ->
  Forall (fun v => has_payload v = true) raw ->
  exists vals,
    Forall2 (fun v x => decode_col v = Ok x) raw vals
    /\ decode_row doc (JArr raw)
       = Ok (dict_update [] (combine (JStr <$> headings) vals)).
Proof.
  intros Hh Hraw. destruct (mapM_decode_col raw Hraw) as [vals [Hm Hf]].
  exists vals. split; [exact Hf|].
  unfold decode_row. cbn [py_iter bind]. rewrite Hm. cbn [bind].
  rewrite Hh. cbn [py_iter bind]. apply dict_from_str.
Qed.

Lemma drain_rows_ok doc rest rows :
  Forall2 (fun r d => decode_row doc r = Ok d) rest rows ->
  drain_rows doc rest = (rows, None).
Proof.
  induction 1 as [|r d rest rows Hr _ IH]; simpl; [reflexivity|].
  now rewrite Hr, IH.
Qed.

Lemma rows_decode doc (headings : list string) (data : list (list json)) :
  getitem doc "headings" = Ok (JArr (JStr <$> headings)) ->
  Forall (Forall (fun v => has_payload v = true)) data ->
  exists rows, Forall2 (fun r d => decode_row doc r = Ok d) (JArr <$> data) rows.
Proof.
  intros Hh. induction 1 as [|raw data Hraw _ [rows IH]].
  - exists []. constructor.
  - destruct (decode_row_ok doc headings raw Hh Hraw) as [vals [_ Hd]].
    eexists (_ :: rows). rewrite fmap_cons. constructor; eassumption.
Qed.

End TableFacts.

(** * The table client *)

(** C1: when the command succeeds and its output has string [headings] and
    [data] rows of the same length as the headings, each value a scalar or a
    tagged pair, the iteration ends without an exception after as many rows
    as [data] has (none for an empty [data]); the keys of each row are the
    headings, and a row maps the heading at a position to the decoded value
    at that position (for a heading that is repeated, at its last
    position).  The condition of [find] is any string; [__iter__] passes
    none. *)
Theorem table_rows_match_headings
  spawn json_loads self condition cp doc
  (headings : list string) (data : list (list json)) :
  _run spawn (find_cmd self condition) = Ok cp ->
  json_loads (stdout cp) = Some doc ->
  getitem doc "headings" = Ok (JArr (JStr <$> headings)) ->
  getitem doc "data" = Ok (JArr (JArr <$> data)) ->
  Forall (fun raw => length raw = length headings
                     /\ Forall (fun v => has_payload v = true) raw) data ->
  exists rows,
    drain spawn json_loads (_find_tbl self condition) = (rows, None)
    /\ length rows = length data
    /\ (data = [] -> rows = [])
    /\ forall (i : nat) r raw,
         rows !! i = Some r -> data !! i = Some raw ->
         (forall k, k ∈ dict_keys r <-> k ∈ (JStr <$> headings))
         /\ (forall (j : nat) h v,
               headings !! j = Some h -> raw !! j = Some v ->
               (forall j' : nat, (j < j')%nat -> headings !! j' <> Some h) ->
               exists x, decode_col v = Ok x /\ dict_get (JStr h) r = Some x).
Proof.
  intros Hrun Hdoc Hh Hd Hwf.
  assert (Hrows : exists rows,
             Forall2 (fun raw r =>
                        exists vals,
                          Forall2 (fun v x => decode_col v = Ok x) raw vals
                          /\ decode_row doc (JArr raw) = Ok r
                          /\ r = dict_update [] (combine (JStr <$> headings) vals))
                     data rows).
  { clear Hd. induction Hwf as [|raw data [_ Hraw] _ [rows IH]].
    - exists []. constructor.
    - destruct (decode_row_ok doc headings raw Hh Hraw) as [vals [Hf Hr]].
      eexists (_ :: rows). constructor; [|exact IH]. exists vals. eauto. }
  destruct Hrows as [rows Hrows]. exists rows.
  split; [|split; [|split]].
  - unfold _find_tbl, drain, start. rewrite Hrun. cbn [bind]. rewrite Hdoc.
    cbn [bind]. rewrite Hd. cbn [py_iter bind].
    apply drain_rows_ok. apply Forall2_fmap_l.
    eapply Forall2_impl; [exact Hrows|]. intros raw r (vals & _ & Hr & _). exact Hr.
  - symmetry. eapply Forall2_length, Hrows.
  - intros ->. now inversion Hrows.
  - intros i r raw Hr Hraw.
    destruct (Forall2_lookup_lr _ _ _ _ _ _ Hrows Hraw Hr) as (vals & Hf & _ & ->).
    pose proof (proj1 (Forall_lookup_1 _ _ _ _ Hwf Hraw)) as Hlen.
    pose proof (Forall2_length _ _ _ Hf) as Hlen'.
    split.
    + intros k. rewrite dict_keys_update_str by congruence.
      unfold dict_keys. simpl. rewrite elem_of_nil. tauto.
    + intros j h v Hj Hv Hlast.
      destruct (Forall2_lookup_l _ _ _ _ _ Hf Hv) as (x & Hx & Hdec).
      exists x. split; [exact Hdec|].
      apply (dict_get_update_last _ _ _ _ j); [discriminate | |].
      * apply lookup_zip_with_Some. exists (JStr h), x.
        rewrite list_lookup_fmap, Hj. auto.
      * intros j' [k' x'] Hlt Hp. simpl.
        apply lookup_zip_with_Some in Hp as (a & b & [= <- <-] & Ha & _).
        rewrite list_lookup_fmap in Ha.
        destruct (headings !! j') as [h'|] eqn:Hh'; [|discriminate].
        injection Ha as <-. unfold key_eqb. simpl.
        apply bool_decide_eq_false. intros [= ->]. now apply (Hlast j').
Qed.

Lemma table_rows_match_headings_witness :
  exists rows,
    drain (prints (json_text two_ports)) (reads two_ports)
      (_find_tbl {| tool := "ovs-vsctl"; tbl := "port" |} (Some "name=eth0"))
    = (rows, None)
    /\ length rows = 2%nat
    /\ rows !! 1%nat = Some [(JStr "_uuid", JStr "2c3d"); (JStr "name", JStr "eth1");
                             (JStr "trunks", JArr [JInt 10; JInt 20])].
Proof.
  destruct (table_rows_match_headings (prints (json_text two_ports)) (reads two_ports)
              {| tool := "ovs-vsctl"; tbl := "port" |} (Some "name=eth0")
              {| stdout := json_text two_ports |} two_ports ["_uuid"; "name"; "trunks"]
              [[JArr [JStr "uuid"; JStr "0a1b"]; JStr "eth0";
                JArr [JStr "set"; JArr []]];
               [JArr [JStr "uuid"; JStr "2c3d"]; JStr "eth1";
                JArr [JStr "set"; JArr [JInt 10; JInt 20]]]])
    as (rows & Hdrain & Hlen & _).
  - reflexivity.
  - reflexivity.
  - reflexivity.
  - reflexivity.
  - repeat constructor.
  - exists rows. split; [exact Hdrain|]. split; [exact Hlen|].
    vm_compute in Hdrain. injection Hdrain as <-. reflexivity.
Defined.

(** C2: a raw value [[tag, payload]] decodes to [payload] as it is, whatever
    is nested in it; a scalar decodes to itself; the output of the scenario
    decodes to the single row [{"name": "br-int", "_uuid": "1234"}]. *)
Theorem decode_col_pair_and_scalar :
  (forall tag payload, decode_col (JArr [tag; payload]) = Ok payload)
  /\ (forall v, is_scalar v = true -> decode_col v = Ok v)
  /\ (forall spawn json_loads self condition cp,
        _run spawn (find_cmd self condition) = Ok cp ->
        json_loads (stdout cp) = Some br_int_output ->
        drain spawn json_loads (_find_tbl self condition)
        = ([[(JStr "name", JStr "br-int"); (JStr "_uuid", JStr "1234")]], None)).
Proof.
  split; [reflexivity|]. split.
  - intros [| | | |items|members]; simpl; intros H;
      first [reflexivity | discriminate H].
  - intros spawn json_loads self condition cp Hrun Hdoc.
    unfold _find_tbl, drain, start. rewrite Hrun. cbn [bind]. rewrite Hdoc.
    reflexivity.
Qed.

Lemma decode_col_pair_and_scalar_witness :
  decode_col (JStr "br-int") = Ok (JStr "br-int")
  /\ decode_col (JArr [JStr "map"; JArr [JArr [JStr "k"; JStr "v"]]])
     = Ok (JArr [JArr [JStr "k"; JStr "v"]])
  /\ drain (prints (json_text br_int_output)) (reads br_int_output)
       (_find_tbl {| tool := "ovs-vsctl"; tbl := "bridge" |} None)
     = ([[(JStr "name", JStr "br-int"); (JStr "_uuid", JStr "1234")]], None).
Proof.
  destruct decode_col_pair_and_scalar as (Hpair & Hscalar & Hscenario).
  split; [|split].
  - apply (Hscalar (JStr "br-int")). reflexivity.
  - apply (Hpair (JStr "map") (JArr [JArr [JStr "k"; JStr "v"]])).
  - apply (Hscenario (prints (json_text br_int_output)) (reads br_int_output)
             {| tool := "ovs-vsctl"; tbl := "bridge" |} None
             {| stdout := json_text br_int_output |});
      reflexivity.
Defined.

(** ** All or nothing *)

(** C3, as stated, fails: the generator decodes a row when it is asked for
    it, so the first [next] yields the first row and the second [next]
    raises [IndexError] on the short list of the second row. *)
Lemma find_raises_after_first_row :
  let gen := find {| tool := "ovs-vsctl"; tbl := "bridge" |} "name!=x" in
  let first := [(JStr "name", JStr "br-int"); (JStr "_uuid", JStr "1234")] in
  exists gen',
    next (prints (json_text short_pair_in_second_row)) (reads short_pair_in_second_row) gen = Yield first gen'
    /\ next (prints (json_text short_pair_in_second_row)) (reads short_pair_in_second_row) gen' = Throw IndexError
    /\ drain (prints (json_text short_pair_in_second_row)) (reads short_pair_in_second_row) gen
       = ([first], Some IndexError)
    /\ ~ all_or_nothing (drain (prints (json_text short_pair_in_second_row)) (reads short_pair_in_second_row) gen).
Proof.
  eexists. split; [reflexivity|]. split; [reflexivity|]. split; [reflexivity|].
  intros [H|H]; vm_compute in H; discriminate H.
Qed.

(** C3, amended: on an output with well-formed rows, either the statements
    before the loop raise, the first [next] raises that exception and no row
    is yielded; or every row decodes and the iteration yields them all and
    ends without an exception. *)
Theorem find_all_or_nothing_on_well_formed_rows
  spawn json_loads self condition :
  (forall cp doc,
     _run spawn (find_cmd self condition) = Ok cp ->
     json_loads (stdout cp) = Some doc -> rows_well_formed doc) ->
  (exists e,
     next spawn json_loads (_find_tbl self condition) = Throw e
     /\ drain spawn json_loads (_find_tbl self condition) = ([], Some e))
  \/ (exists doc rest rows,
        start spawn json_loads self condition = Ok (doc, rest)
        /\ Forall2 (fun r d => decode_row doc r = Ok d) rest rows
        /\ drain spawn json_loads (_find_tbl self condition) = (rows, None)).
Proof.
  intros Hwf. unfold _find_tbl. cbn [next drain].
  destruct (start spawn json_loads self condition) as [[doc rest]|e] eqn:Hstart;
    [right | left; eauto].
  unfold start in Hstart.
  destruct (_run spawn (find_cmd self condition)) as [cp|] eqn:Hrun;
    [|discriminate]. cbn [bind] in Hstart.
  destruct (json_loads (stdout cp)) as [doc'|] eqn:Hdoc; [|discriminate].
  cbn [bind] in Hstart.
  destruct (getitem doc' "data") as [d|] eqn:Hd; [|discriminate].
  cbn [bind] in Hstart.
  destruct (Hwf cp doc' eq_refl Hdoc d Hd) as (headings & data & Hh & -> & Hrows).
  cbn [py_iter bind] in Hstart. injection Hstart as <- <-.
  destruct (rows_decode doc' headings data Hh Hrows) as [rows Hdec].
  exists doc', (JArr <$> data), rows.
  split; [reflexivity|]. split; [exact Hdec|]. now apply drain_rows_ok.
Qed.

Lemma find_all_or_nothing_on_well_formed_rows_witness :
  (exists e,
     next (prints (json_text two_ports)) (reads two_ports)
       (_find_tbl {| tool := "ovs-vsctl"; tbl := "port" |} None) = Throw e
     /\ drain (prints (json_text two_ports)) (reads two_ports)
          (_find_tbl {| tool := "ovs-vsctl"; tbl := "port" |} None) = ([], Some e))
  \/ (exists doc rest rows,
        start (prints (json_text two_ports)) (reads two_ports)
          {| tool := "ovs-vsctl"; tbl := "port" |} None = Ok (doc, rest)
        /\ Forall2 (fun r d => decode_row doc r = Ok d) rest rows
        /\ drain (prints (json_text two_ports)) (reads two_ports)
             (_find_tbl {| tool := "ovs-vsctl"; tbl := "port" |} None)
           = (rows, None)).
Proof.
  apply (find_all_or_nothing_on_well_formed_rows
           (prints (json_text two_ports)) (reads two_ports)
           {| tool := "ovs-vsctl"; tbl := "port" |} None).
  intros cp doc _ Hdoc. unfold reads in Hdoc.
  destruct (bool_decide _); [injection Hdoc as <- | discriminate Hdoc].
  intros d [= <-].
  exists ["_uuid"; "name"; "trunks"],
    [[JArr [JStr "uuid"; JStr "0a1b"]; JStr "eth0"; JArr [JStr "set"; JArr []]];
     [JArr [JStr "uuid"; JStr "2c3d"]; JStr "eth1";
      JArr [JStr "set"; JArr [JInt 10; JInt 20]]]].
  split; [reflexivity|]. split; [reflexivity|]. repeat constructor.
Defined.

(** C9: a raw value that is a list of two or more elements decodes to its
    element at index 1, whatever follows it; a list of no element or of one
    raises [IndexError]. *)
Theorem decode_col_list_of_any_length (items : list json) :
  ((2 <= length items)%nat ->
   exists x, items !! 1%nat = Some x /\ decode_col (JArr items) = Ok x)
  /\ ((length items < 2)%nat -> decode_col (JArr items) = Raise IndexError).
Proof.
  destruct items as [|a [|b items]]; simpl; split; intros H;
    first [lia | reflexivity | eauto].
Qed.

Lemma decode_col_list_of_any_length_witness :
  (exists x, [JStr "set"; JArr [JInt 1; JInt 2]; JStr "extra"] !! 1%nat = Some x
             /\ decode_col (JArr [JStr "set"; JArr [JInt 1; JInt 2]; JStr "extra"])
                = Ok x)
  /\ decode_col (JArr [JStr "uuid"]) = Raise IndexError.
Proof.
  split.
  - apply (decode_col_list_of_any_length
             [JStr "set"; JArr [JInt 1; JInt 2]; JStr "extra"]).
    simpl. lia.
  - apply (decode_col_list_of_any_length [JStr "uuid"]). simpl. lia.
Defined.

(** * The status parser and the leader test *)

(** C4: [is_cluster_leader] returns true exactly when the status record was
    parsed and its [leader] field is the string [self]; for a parsed record
    with any other [leader] value, or without that field, it returns false. *)
Theorem is_cluster_leader_iff_leader_self spawn target schema :
  (is_cluster_leader spawn target schema = Ok true <->
   exists status, cluster_status spawn target schema = Ok status
                  /\ status !! "leader" = Some (VStr "self"))
  /\ (forall status, cluster_status spawn target schema = Ok status ->
        status !! "leader" <> Some (VStr "self") ->
        is_cluster_leader spawn target schema = Ok false).
Proof.
  unfold is_cluster_leader, leader_is_self. split; [split|].
  - destruct (cluster_status spawn target schema) as [status|e].
    + intros [= H]. exists status. split; [reflexivity|].
      destruct (status !! "leader") as [[s| |]|]; try discriminate.
      now apply bool_decide_eq_true in H as ->.
    + destruct e; discriminate.
  - intros [status [-> ->]]. reflexivity.
  - intros status -> Hne.
    destruct (status !! "leader") as [[s| |]|]; try reflexivity.
    f_equal. apply bool_decide_eq_false. congruence.
Qed.

Lemma is_cluster_leader_iff_leader_self_witness :
  is_cluster_leader (prints "Leader: self") "ovnnb_db" None = Ok true
  /\ is_cluster_leader (prints "Leader: 1b2c") "ovnsb_db" None = Ok false
  /\ is_cluster_leader (prints "Role: follower") "ovnsb_db" None = Ok false.
Proof.
  split; [|split].
  - apply (is_cluster_leader_iff_leader_self (prints "Leader: self") "ovnnb_db" None).
    exists {[ "leader" := VStr "self" ]}. split; reflexivity.
  - apply (is_cluster_leader_iff_leader_self (prints "Leader: 1b2c") "ovnsb_db" None)
      with (status := {[ "leader" := VStr "1b2c" ]}); [reflexivity|].
    vm_compute. discriminate.
  - apply (is_cluster_leader_iff_leader_self (prints "Role: follower") "ovnsb_db" None)
      with (status := {[ "role" := VStr "follower" ]}); [reflexivity|].
    vm_compute. discriminate.
Defined.




(** ** Continuation lines *)

(** C6, as stated, fails: the test of the loop is
    [k and line.startswith(' ')], so a line indented with a tab is not a
    continuation; having no colon, it is skipped.  By the same test a field
    with the empty key collects nothing. *)
Lemma tab_indented_line_is_dropped :
  PyStr.splitlines ("Servers:" +:+ LF +:+ TAB +:+ "srv-a")
  = ["Servers:"; TAB +:+ "srv-a"]
  /\ cluster_status (prints ("Servers:" +:+ LF +:+ TAB +:+ "srv-a")) "ovnnb_db" None
     = Ok {[ "servers" := VList [] ]}
  /\ cluster_status (prints (":" +:+ LF +:+ "  srv-a")) "ovnnb_db" None
     = Ok {[ "" := VList [] ]}
  /\ ~ whitespace_lines_accumulate.
Proof.
  split; [reflexivity|]. split; [reflexivity|]. split; [reflexivity|].
  intros H. destruct (H [TAB +:+ "srv-a"]) as [st [Hst Hget]].
  - constructor; [|constructor]. eexists _, _. split; reflexivity.
  - vm_compute in Hst. injection Hst as <-. vm_compute in Hget. discriminate.
Qed.

(** C6, amended: a line that holds a colon followed by nothing sets its field
    to an empty list; when the key is not empty, the following lines that
    begin with a space character are appended to that list in order, each
    without its leading whitespace.  The report [Servers:] followed by the
    indented [srv-a] and [srv-b] gives [servers == ["srv-a", "srv-b"]]. *)
Theorem continuation_lines_accumulate :
  (forall status k0 line key conts,
     is_continuation k0 line = false ->
     PyStr.split1 ":" line = (key, Some EmptyString) ->
     parse_line (status, k0) line
     = Ok (<[normalise_key key := VList []]> status, normalise_key key)
     /\ (key <> EmptyString ->
         Forall (fun c => PyStr.startswith " " c = true) conts ->
         parse_lines (line :: conts) (status, k0)
         = Ok (<[normalise_key key := VList (PyStr.lstrip <$> conts)]> status,
               normalise_key key)))
  /\ (forall spawn target schema,
        ovs_appctl spawn target (status_args target schema)
        = Ok ("Servers:" +:+ LF +:+ "    srv-a" +:+ LF +:+ "    srv-b") ->
        cluster_status spawn target schema
        = Ok {[ "servers" := VList ["srv-a"; "srv-b"] ]}).
Proof.
  split.
  - intros status k0 line key conts Hc Hs.
    pose proof (parse_line_field status k0 line key _ Hc Hs) as Hline.
    cbn [PyStr.truthy] in Hline. cbv zeta in Hline. split; [exact Hline|].
    intros Hkey Hall. rewrite parse_lines_cons, Hline. cbn [bind].
    rewrite parse_lines_append; [reflexivity | | assumption].
    intros Hn. now apply Hkey, normalise_key_nil.
  - intros spawn target schema Hout. unfold cluster_status.
    rewrite Hout. reflexivity.
Qed.

Lemma continuation_lines_accumulate_witness :
  parse_lines ["Raft Servers:"; "  a1b2 at tcp:10.0.0.1:6644"; " c3d4 (self)"]
              ({[ "leader" := VStr "self" ]}, "leader")
  = Ok (<[ "raft_servers" := VList ["a1b2 at tcp:10.0.0.1:6644"; "c3d4 (self)"] ]>
          {[ "leader" := VStr "self" ]}, "raft_servers")
  /\ cluster_status
       (prints ("Servers:" +:+ LF +:+ "    srv-a" +:+ LF +:+ "    srv-b"))
       "ovnnb_db" None
     = Ok {[ "servers" := VList ["srv-a"; "srv-b"] ]}.
Proof.
  destruct continuation_lines_accumulate as [Hlines Hreport]. split.
  - apply (Hlines {[ "leader" := VStr "self" ]} "leader" "Raft Servers:"
             "Raft Servers" ["  a1b2 at tcp:10.0.0.1:6644"; " c3d4 (self)"]).
    + reflexivity.
    + reflexivity.
    + discriminate.
    + repeat constructor.
  - apply (Hreport (prints ("Servers:" +:+ LF +:+ "    srv-a" +:+ LF +:+ "    srv-b"))
             "ovnnb_db" None).
    reflexivity.
Defined.

(** ** Identifier fields *)

(** C7: the code does not give the pair that the claim and the docstring of
    [cluster_status] ([Tuple[str, str]]) promise.  [tuple(v.split())] has
    one element for each word of the remainder and its length is not
    checked: the report [Cluster id: abcd] gives the tuple of one element
    [("abcd",)] for [cluster_id]. *)
Lemma id_field_of_one_word_is_not_a_pair :
  cluster_status (prints "Cluster id: abcd") "ovnnb_db" None
  = Ok {[ "cluster_id" := VTuple ["abcd"] ]}
  /\ ~ id_fields_are_pairs.
Proof.
  split; [reflexivity|].
  intros H.
  destruct (H "Cluster id: abcd" "Cluster id" " abcd") as (st & a & b & Hst & Hget).
  - reflexivity.
  - discriminate.
  - vm_compute. apply list_elem_of_here.
  - vm_compute in Hst. injection Hst as <-. vm_compute in Hget. discriminate.
Qed.

(** X18: what lines 85-91 compute.  For a line that sets a field to a
    non-empty remainder, the keys [cluster_id] and [server_id] store
    [tuple(v.split())] of the remainder with every parenthesis removed, and
    every other key stores the remainder without its leading whitespace, as
    a string.  For a remainder of the form [value (shortform)] that tuple is
    the pair of [value] and [shortform]; the report
    [Cluster id: abcd1234 (abcd)] gives [cluster_id == ("abcd1234", "abcd")]. *)
Theorem id_fields_decode_to_word_tuples :
  (forall status k0 line key v,
     is_continuation k0 line = false ->
     PyStr.split1 ":" line = (key, Some v) ->
     v <> EmptyString ->
     (normalise_key key ∈ ["cluster_id"; "server_id"] ->
      parse_line (status, k0) line
      = Ok (<[normalise_key key :=
                VTuple (PyStr.split (PyStr.remove ")" (PyStr.remove "(" v)))]> status,
            normalise_key key))
     /\ (normalise_key key ∉ ["cluster_id"; "server_id"] ->
         parse_line (status, k0) line
         = Ok (<[normalise_key key := VStr (PyStr.lstrip v)]> status,
               normalise_key key)))
  /\ (forall pad value gap shortform,
        blank pad = true ->
        plain value = true -> value <> EmptyString ->
        blank gap = true -> gap <> EmptyString ->
        plain shortform = true -> shortform <> EmptyString ->
        PyStr.split (PyStr.remove ")" (PyStr.remove "("
          (pad +:+ value +:+ gap +:+ "(" +:+ shortform +:+ ")")))
        = [value; shortform])
  /\ (forall spawn target schema,
        ovs_appctl spawn target (status_args target schema)
        = Ok "Cluster id: abcd1234 (abcd)" ->
        cluster_status spawn target schema
        = Ok {[ "cluster_id" := VTuple ["abcd1234"; "abcd"] ]}).
Proof.
  split; [|split].
  - intros status k0 line key v Hc Hs Hv.
    pose proof (parse_line_field status k0 line key v Hc Hs) as Hline.
    rewrite (PyStrFacts.truthy_true v Hv) in Hline. cbv zeta in Hline.
    split; intros Hk; rewrite Hline.
    + now rewrite bool_decide_eq_true_2.
    + now rewrite bool_decide_eq_false_2.
  - intros pad value gap shortform Hp Hv Hvn Hg Hgn Hs Hsn.
    apply PyStrFacts.split_value_shortform;
      auto using PyStrFacts.truthy_true.
  - intros spawn target schema Hout. unfold cluster_status.
    rewrite Hout. reflexivity.
Qed.

Lemma id_fields_decode_to_word_tuples_witness :
  parse_line (∅, EmptyString) "Server ID: 1b2c (1b2c3d4e)"
  = Ok ({[ "server_id" := VTuple ["1b2c"; "1b2c3d4e"] ]}, "server_id")
  /\ parse_line (∅, EmptyString) "Address: tcp:10.0.0.1:6644"
     = Ok ({[ "address" := VStr "tcp:10.0.0.1:6644" ]}, "address")
  /\ PyStr.split (PyStr.remove ")" (PyStr.remove "("
       (" " +:+ "1b2c" +:+ " " +:+ "(" +:+ "1b2c3d4e" +:+ ")")))
     = ["1b2c"; "1b2c3d4e"]
  /\ cluster_status (prints "Cluster id: abcd1234 (abcd)") "ovnnb_db" None
     = Ok {[ "cluster_id" := VTuple ["abcd1234"; "abcd"] ]}.
Proof.
  destruct id_fields_decode_to_word_tuples as (Hline & Hform & Hreport).
  split; [|split; [|split]].
  - apply (Hline ∅ EmptyString "Server ID: 1b2c (1b2c3d4e)" "Server ID"
             " 1b2c (1b2c3d4e)"); [reflexivity | reflexivity | discriminate |].
    vm_compute. apply list_elem_of_further, list_elem_of_here.
  - apply (Hline ∅ EmptyString "Address: tcp:10.0.0.1:6644" "Address"
             " tcp:10.0.0.1:6644"); [reflexivity | reflexivity | discriminate |].
    rewrite !elem_of_cons, elem_of_nil. vm_compute.
    intros [H|[H|[]]]; discriminate H.
  - apply (Hform " " "1b2c" " " "1b2c3d4e");
      first [reflexivity | discriminate].
  - apply (Hreport (prints "Cluster id: abcd1234 (abcd)") "ovnnb_db" None).
    reflexivity.
Defined.

(** ** Target resolution *)

(** C8, as stated, fails: [schema or schema_map.get(target)] takes the
    implied schema when the caller passes the empty string. *)
Lemma empty_schema_does_not_override :
  schema_arg "ovnnb_db" (Some "") = Some "OVN_Northbound"
  /\ cluster_status_cmd "ovnnb_db" (Some "")
     = [Some "ovs-appctl"; Some "-t"; Some "/var/run/openvswitch/ovnnb_db.ctl";
        Some "cluster/status"; Some "OVN_Northbound"]
  /\ ~ explicit_schema_overrides.
Proof.
  split; [reflexivity|]. split; [reflexivity|].
  intros H. specialize (H "ovnnb_db" ""). discriminate H.
Qed.

Lemma resolve_target_other target :
  target <> "ovnnb_db" -> target <> "ovnsb_db" ->
  resolve_target target = target /\ schema_map_get target = None.
Proof.
  intros Hnb Hsb. unfold resolve_target, schema_map_get.
  rewrite !bool_decide_eq_false_2; [auto | assumption | assumption |].
  rewrite !elem_of_cons, elem_of_nil. tauto.
Qed.

(** C8, amended: the command of [cluster_status] is a function of the target
    and the schema alone; the two short names resolve to their control socket
    under the run directory and imply their schema, any other target is
    passed as it is with no schema, and a non-empty schema from the caller
    replaces the implied one. *)
Theorem target_resolution :
  (forall spawn target schema,
     ovs_appctl spawn target (status_args target schema)
     = (cp <- _run spawn (cluster_status_cmd target schema) ;;; Ok (stdout cp)))
  /\ cluster_status_cmd "ovnnb_db" None
     = [Some "ovs-appctl"; Some "-t"; Some "/var/run/openvswitch/ovnnb_db.ctl";
        Some "cluster/status"; Some "OVN_Northbound"]
  /\ cluster_status_cmd "ovnsb_db" None
     = [Some "ovs-appctl"; Some "-t"; Some "/var/run/openvswitch/ovnsb_db.ctl";
        Some "cluster/status"; Some "OVN_Southbound"]
  /\ (forall target,
        target <> "ovnnb_db" -> target <> "ovnsb_db" ->
        cluster_status_cmd target None
        = [Some "ovs-appctl"; Some "-t"; Some target;
           Some "cluster/status"; None])
  /\ (forall target s,
        s <> "" ->
        cluster_status_cmd target (Some s)
        = [Some "ovs-appctl"; Some "-t"; Some (resolve_target target);
           Some "cluster/status"; Some s]).
Proof.
  split; [reflexivity|]. split; [reflexivity|]. split; [reflexivity|]. split.
  - intros target Hnb Hsb.
    unfold cluster_status_cmd, ovs_appctl_cmd, status_args, schema_arg.
    now destruct (resolve_target_other target Hnb Hsb) as [-> ->].
  - intros target s Hs.
    unfold cluster_status_cmd, ovs_appctl_cmd, status_args, schema_arg.
    now rewrite (PyStrFacts.truthy_true s Hs).
Qed.

Lemma target_resolution_witness :
  cluster_status_cmd "/run/ovn/ovnnb_db.ctl" None
  = [Some "ovs-appctl"; Some "-t"; Some "/run/ovn/ovnnb_db.ctl";
     Some "cluster/status"; None]
  /\ cluster_status_cmd "ovnsb_db" (Some "OVN_Northbound")
     = [Some "ovs-appctl"; Some "-t"; Some (resolve_target "ovnsb_db");
        Some "cluster/status"; Some "OVN_Northbound"].
Proof.
  destruct target_resolution as (_ & _ & _ & Hother & Hschema). split.
  - apply (Hother "/run/ovn/ovnnb_db.ctl"); discriminate.
  - apply (Hschema "ovnsb_db" "OVN_Northbound"); discriminate.
Defined.

(** ** Continuation of a field that is not a list *)

(** C10, as stated, fails: the first branch is guarded by [k and ...], and a
    line that begins with the colon leaves the cursor [k] empty, so the line
    after it is not taken as a continuation and nothing is raised. *)
Lemma stray_continuation_after_empty_key_is_skipped :
  stray_continuation (": x" +:+ LF +:+ " y") [] ": x" "" " x" [] " y" []
  /\ cluster_status (prints (": x" +:+ LF +:+ " y")) "ovnnb_db" None
     = Ok {[ "" := VStr "x" ]}
  /\ ~ stray_continuation_raises.
Proof.
  assert (Hs : stray_continuation (": x" +:+ LF +:+ " y") [] ": x" "" " x" [] " y" []).
  { split; [reflexivity|]. split; [exists parse_init; split; reflexivity|].
    split; [reflexivity|]. split; [discriminate|].
    split; [constructor | reflexivity]. }
  split; [exact Hs|]. split; [reflexivity|].
  intros H.
  destruct (H (prints (": x" +:+ LF +:+ " y")) "ovnnb_db" None _ _ _ _ _ _ _ _
              eq_refl Hs) as [e He].
  discriminate He.
Qed.

(** C10, amended: when the line that sets the field has a non-empty key,
    [cluster_status] raises [AttributeError] at the first following line
    that begins with a space: the field holds a string or a tuple, and
    neither has [append]. *)
Theorem stray_continuation_raises_attribute_error
  spawn target schema out pre line key v mid cont post :
  ovs_appctl spawn target (status_args target schema) = Ok out ->
  stray_continuation out pre line key v mid cont post ->
  key <> EmptyString ->
  cluster_status spawn target schema = Raise AttributeError.
Proof.
  intros Hout (Hlines & (st & Hpre & Hc) & Hsplit & Hv & Hmid & Hcont) Hkey.
  unfold cluster_status. rewrite Hout. cbn [bind].
  rewrite Hlines. unfold parse_lines. rewrite foldM_app.
  fold (parse_lines pre parse_init). rewrite Hpre. cbn [bind].
  fold (parse_lines (line :: mid ++ cont :: post) st).
  destruct st as [status k0]. cbn [snd] in Hc.
  rewrite parse_lines_cons, (parse_line_field status k0 line key v Hc Hsplit).
  cbv zeta. cbn [bind].
  rewrite parse_lines_no_append; [reflexivity | | | assumption | assumption].
  - intros Hn. now apply Hkey, normalise_key_nil.
  - rewrite lookup_insert_eq, (PyStrFacts.truthy_true v Hv).
    destruct (bool_decide _); eauto.
Qed.

Lemma stray_continuation_raises_attribute_error_witness :
  cluster_status
    (prints ("Name: OVN_Northbound" +:+ LF +:+ "Leader: self" +:+ LF
             +:+ "" +:+ LF +:+ "  srv-a" +:+ LF +:+ "Term: 2"))
    "ovnnb_db" None
  = Raise AttributeError.
Proof.
  apply (stray_continuation_raises_attribute_error
           (prints ("Name: OVN_Northbound" +:+ LF +:+ "Leader: self" +:+ LF
                    +:+ "" +:+ LF +:+ "  srv-a" +:+ LF +:+ "Term: 2"))
           "ovnnb_db" None
           ("Name: OVN_Northbound" +:+ LF +:+ "Leader: self" +:+ LF
            +:+ "" +:+ LF +:+ "  srv-a" +:+ LF +:+ "Term: 2")
           ["Name: OVN_Northbound"] "Leader: self" "Leader" " self"
           [""] "  srv-a" ["Term: 2"]).
  - reflexivity.
  - split; [reflexivity|].
    split; [exists ({[ "name" := VStr "OVN_Northbound" ]}, "name"); split; reflexivity|].
    split; [reflexivity|]. split; [discriminate|].
    split; [repeat constructor | reflexivity].
  - discriminate.
Defined.

(** * Further properties of the status parser *)

Lemma parse_line_cursor_set st line st' :
  cursor_set st -> parse_line st line = Ok st' -> cursor_set st'.
Proof.
  destruct st as [status k]. unfold parse_line, cursor_set. cbn [fst snd].
  intros Hinv.
  destruct (is_continuation k line).
  - destruct (status !! k) as [[s|l|t]|]; try discriminate.
    intros [= <-]. right. cbn [fst snd]. rewrite lookup_insert_eq. eauto.
  - destruct (PyStr.contains ":" line); [|intros [= <-]; exact Hinv].
    destruct (PyStr.split1 ":" line) as [k0 [v|]]; [|discriminate].
    cbv zeta. destruct (PyStr.truthy v); [destruct (bool_decide _)|];
      intros [= <-]; right; cbn [fst snd]; rewrite lookup_insert_eq; eauto.
Qed.

Lemma parse_line_raises st line e :
  cursor_set st -> parse_line st line = Raise e -> e = AttributeError.
Proof.
  intros Hinv He. destruct st as [status k].
  pose proof (parse_line_unpacks (status, k) line) as Hval.
  unfold parse_line in He, Hval. unfold cursor_set in Hinv. cbn [fst snd] in Hinv.
  destruct (is_continuation k line) eqn:Hc.
  - unfold is_continuation in Hc. apply andb_prop in Hc as [Hk _].
    destruct Hinv as [->|[x Hx]]; [discriminate Hk|]. rewrite Hx in He.
    destruct x; congruence.
  - destruct (PyStr.contains ":" line); [|discriminate].
    destruct (PyStr.split1 ":" line) as [k0 [v|]]; [|congruence].
    cbv zeta in He. destruct (PyStr.truthy v); [destruct (bool_decide _)|];
      discriminate.
Qed.

Lemma parse_lines_raises lines st e :
  cursor_set st -> parse_lines lines st = Raise e -> e = AttributeError.
Proof.
  revert st. induction lines as [|line lines IH]; intros st Hinv; [discriminate|].
  rewrite parse_lines_cons.
  destruct (parse_line st line) as [st'|e'] eqn:Hline; cbn [bind].
  - apply IH. eapply parse_line_cursor_set; eassumption.
  - intros [= <-]. eapply parse_line_raises; eassumption.
Qed.

Lemma cluster_status_raises spawn target schema e :
  cluster_status spawn target schema = Raise e ->
  ovs_appctl spawn target (status_args target schema) = Raise e
  \/ (exists out,
        ovs_appctl spawn target (status_args target schema) = Ok out
        /\ e = AttributeError).
Proof.
  unfold cluster_status.
  destruct (ovs_appctl spawn target _) as [out|e'] eqn:Hout; cbn [bind].
  - destruct (parse_lines _ parse_init) as [st|e'] eqn:Hp; cbn [bind];
      [discriminate|].
    intros [= <-]. right. exists out. split; [reflexivity|].
    eapply parse_lines_raises; [|exact Hp]. now left.
  - intros [= <-]. now left.
Qed.

(** X1: an exception of [cluster_status] is the exception of the
    invocation, or, when the invocation returned its output,
    [AttributeError]: the loop raises nothing else, the lookup [status[k]]
    and the unpacking of [split] never fail. *)
Theorem cluster_status_exceptions spawn target schema e :
  cluster_status spawn target schema = Raise e ->
  ovs_appctl spawn target (status_args target schema) = Raise e
  \/ (exists out,
        ovs_appctl spawn target (status_args target schema) = Ok out
        /\ PyStr.splitlines out <> []
        /\ e = AttributeError).
Proof.
  intros He. destruct (cluster_status_raises _ _ _ _ He) as [Hr|(out & Hout & ->)];
    [now left|].
  right. exists out. split; [exact Hout|]. split; [|reflexivity].
  intros Hnil. unfold cluster_status in He. rewrite Hout in He.
  cbn [bind] in He. rewrite Hnil in He. discriminate He.
Qed.

Lemma cluster_status_exceptions_witness :
  ovs_appctl (prints ("Leader: self" +:+ LF +:+ " x")) "ovnnb_db"
    (status_args "ovnnb_db" None) = Raise AttributeError
  \/ (exists out,
        ovs_appctl (prints ("Leader: self" +:+ LF +:+ " x")) "ovnnb_db"
          (status_args "ovnnb_db" None) = Ok out
        /\ PyStr.splitlines out <> []
        /\ AttributeError = AttributeError).
Proof.
  apply (cluster_status_exceptions
           (prints ("Leader: self" +:+ LF +:+ " x")) "ovnnb_db" None).
  reflexivity.
Defined.

(** X2: [is_cluster_leader] never lets a [CalledProcessError] out; what it
    raises is another exception of the invocation, or, when the invocation
    returned its output, the [AttributeError] of the loop. *)
Theorem is_cluster_leader_exceptions spawn target schema e :
  is_cluster_leader spawn target schema = Raise e ->
  (forall rc, e <> CalledProcessError rc)
  /\ (ovs_appctl spawn target (status_args target schema) = Raise e
      \/ (exists out,
            ovs_appctl spawn target (status_args target schema) = Ok out
            /\ e = AttributeError)).
Proof.
  unfold is_cluster_leader.
  destruct (cluster_status spawn target schema) as [status|e'] eqn:Hc;
    [discriminate|].
  pose proof (cluster_status_raises _ _ _ _ Hc) as Hr.
  destruct e'; try discriminate; intros [= <-]; (split; [discriminate | exact Hr]).
Qed.

Lemma is_cluster_leader_exceptions_witness :
  (forall rc, PermissionError <> CalledProcessError rc)
  /\ (ovs_appctl (fun _ => NotPermitted) "ovnnb_db" (status_args "ovnnb_db" None)
      = Raise PermissionError
      \/ (exists out,
            ovs_appctl (fun _ => NotPermitted) "ovnnb_db"
              (status_args "ovnnb_db" None) = Ok out
            /\ PermissionError = AttributeError)).
Proof.
  apply (is_cluster_leader_exceptions (fun _ => NotPermitted) "ovnnb_db" None).
  reflexivity.
Defined.




Lemma normalise_char_normal c :
  Ascii.eqb " " (normalise_char c) = false
  /\ PyStr.lower_char (normalise_char c) = normalise_char c.
Proof.
  destruct c as [[] [] [] [] [] [] [] []]; vm_compute; split; reflexivity.
Qed.

Lemma normalise_key_cons c s :
  normalise_key (String c s) = String (normalise_char c) (normalise_key s).
Proof. reflexivity. Qed.

Lemma normalise_key_normal key : normal_key (normalise_key key).
Proof.
  unfold normal_key. induction key as [|c key [IH1 IH2]]; [split; reflexivity|].
  rewrite normalise_key_cons. cbn [PyStr.contains PyStr.lower].
  destruct (normalise_char_normal c) as [-> ->]. now rewrite IH1, IH2.
Qed.

Lemma keys_normal_insert status k v :
  normal_key k -> (forall j, is_Some (status !! j) -> normal_key j) ->
  keys_normal (<[k := v]> status, k).
Proof.
  intros Hk Hall. split; [exact Hk|]. cbn [fst]. intros j.
  destruct (decide (k = j)) as [<-|Hne]; [auto|].
  rewrite lookup_insert_ne by assumption. apply Hall.
Qed.

Lemma parse_line_keys_normal st line st' :
  keys_normal st -> parse_line st line = Ok st' -> keys_normal st'.
Proof.
  destruct st as [status k]. intros [Hk Hall]. cbn [fst snd] in Hk, Hall.
  unfold parse_line.
  destruct (is_continuation k line).
  - destruct (status !! k) as [[s|l|t]|]; try discriminate.
    intros [= <-]. now apply keys_normal_insert.
  - destruct (PyStr.contains ":" line); [|intros [= <-]; now split].
    destruct (PyStr.split1 ":" line) as [k0 [v|]]; [|discriminate].
    cbv zeta. destruct (PyStr.truthy v); [destruct (bool_decide _)|];
      intros [= <-]; apply keys_normal_insert;
      auto using normalise_key_normal.
Qed.

Lemma parse_lines_keys_normal lines st st' :
  keys_normal st -> parse_lines lines st = Ok st' -> keys_normal st'.
Proof.
  revert st. induction lines as [|line lines IH]; intros st Hinv.
  - now intros [= <-].
  - rewrite parse_lines_cons.
    destruct (parse_line st line) as [st1|] eqn:Hline; [|discriminate].
    cbn [bind]. apply IH. eapply parse_line_keys_normal; eassumption.
Qed.

Lemma cluster_status_parsed spawn target schema status :
  cluster_status spawn target schema = Ok status ->
  exists out k,
    ovs_appctl spawn target (status_args target schema) = Ok out
    /\ parse_lines (PyStr.splitlines out) parse_init = Ok (status, k).
Proof.
  unfold cluster_status.
  destruct (ovs_appctl spawn target _) as [out|] eqn:Hout; [|discriminate].
  cbn [bind].
  destruct (parse_lines _ parse_init) as [[status' k]|] eqn:Hp; [|discriminate].
  cbn [bind fst]. intros [= <-]. exists out, k. split; [reflexivity | exact Hp].
Qed.

Lemma keys_normal_init : keys_normal parse_init.
Proof.
  split; [split; reflexivity|]. cbn [fst parse_init]. intros k [v Hv].
  rewrite lookup_empty in Hv. discriminate Hv.
Qed.

(** X4: every field name of the record returned by [cluster_status] is in
    normal form: it holds no space and [lower()] leaves it as it is. *)
Theorem cluster_status_keys_normal spawn target schema status k :
  cluster_status spawn target schema = Ok status ->
  is_Some (status !! k) ->
  PyStr.contains " " k = false /\ PyStr.lower k = k.
Proof.
  intros (out & k' & _ & Hp)%cluster_status_parsed Hk.
  apply (parse_lines_keys_normal _ _ _ keys_normal_init Hp). exact Hk.
Qed.

Lemma cluster_status_keys_normal_witness :
  PyStr.contains " " "cluster_id" = false /\ PyStr.lower "cluster_id" = "cluster_id".
Proof.
  apply (cluster_status_keys_normal (prints "Cluster ID: 9f8e (9f8e0c2d)")
           "ovnsb_db" None {[ "cluster_id" := VTuple ["9f8e"; "9f8e0c2d"] ]}).
  - reflexivity.
  - rewrite lookup_singleton_eq. eauto.
Defined.

Section ValueFacts.
Import PyStr PyStrFacts.

Lemma lstrip_idem s : lstrip (lstrip s) = lstrip s.
Proof.
  induction s as [|c s IH]; [reflexivity|]. cbn [lstrip].
  destruct (is_space c) eqn:Hc; [exact IH|]. cbn [lstrip]. now rewrite Hc.
Qed.

Lemma remove_no_paren v : no_paren (remove ")" (remove "(" v)) = true.
Proof.
  induction v as [|c v IH]; [reflexivity|]. cbn [remove].
  destruct (Ascii.eqb "(" c) eqn:Ho; [exact IH|]. cbn [remove].
  destruct (Ascii.eqb ")" c) eqn:Hc; [exact IH|]. cbn [no_paren].
  now rewrite Ho, Hc, IH.
Qed.

Lemma plain_snoc cur c :
  plain cur = true -> is_space c = false ->
  Ascii.eqb "(" c = false -> Ascii.eqb ")" c = false ->
  plain (cur +:+ String c EmptyString) = true.
Proof.
  intros Hcur Hs Ho Hc. induction cur as [|a cur IH].
  - rewrite sapp_nil_l. cbn [plain]. now rewrite Hs, Ho, Hc.
  - rewrite sapp_cons. cbn [plain] in *.
    apply andb_prop in Hcur as [-> Hcur]. now rewrite IH.
Qed.

Lemma truthy_nonempty s : truthy s = true -> s <> EmptyString.
Proof. destruct s; [discriminate | congruence]. Qed.

Lemma split_from_tokens cur s :
  plain cur = true -> no_paren s = true ->
  Forall (fun x => plain x = true /\ x <> EmptyString) (split_from cur s).
Proof.
  revert cur. induction s as [|c s IH]; intros cur Hcur Hs; cbn [split_from].
  - destruct (truthy cur) eqn:Ht; [|constructor].
    constructor; [|constructor]. auto using truthy_nonempty.
  - cbn [no_paren] in Hs. apply andb_prop in Hs as [[Ho Hc]%andb_prop Hs].
    apply negb_true_iff in Ho, Hc.
    destruct (is_space c) eqn:Hsp.
    + destruct (truthy cur) eqn:Ht; [constructor|]; auto using truthy_nonempty.
    + apply IH; [|exact Hs]. now apply plain_snoc.
Qed.

Lemma values_ok_insert (status : gmap string status_value) k v :
  value_ok k v ->
  (forall j x, status !! j = Some x -> value_ok j x) ->
  forall j x, <[k := v]> status !! j = Some x -> value_ok j x.
Proof.
  intros Hv Hall j x. destruct (decide (k = j)) as [<-|Hne].
  - rewrite lookup_insert_eq. now intros [= <-].
  - rewrite lookup_insert_ne by assumption. apply Hall.
Qed.

Lemma parse_line_values_ok status k line status' k' :
  (forall j x, status !! j = Some x -> value_ok j x) ->
  parse_line (status, k) line = Ok (status', k') ->
  forall j x, status' !! j = Some x -> value_ok j x.
Proof.
  intros Hall. unfold parse_line.
  destruct (is_continuation k line).
  - destruct (status !! k) as [[s|l|t]|] eqn:Hk; try discriminate.
    intros [= <- <-]. apply values_ok_insert; [|exact Hall].
    cbn [value_ok]. apply Forall_app. split; [exact (Hall k _ Hk)|].
    constructor; [apply lstrip_idem | constructor].
  - destruct (contains ":" line); [|now intros [= <- <-]].
    destruct (split1 ":" line) as [k0 [v|]]; [|discriminate].
    cbv zeta. destruct (truthy v); [case_bool_decide|];
      intros [= <- <-]; apply values_ok_insert; try exact Hall; cbn [value_ok].
    + split; [assumption|]. apply split_from_tokens; [reflexivity|].
      apply remove_no_paren.
    + apply lstrip_idem.
    + constructor.
Qed.

Lemma parse_lines_values_ok lines st st' :
  (forall j x, st.1 !! j = Some x -> value_ok j x) ->
  parse_lines lines st = Ok st' ->
  forall j x, st'.1 !! j = Some x -> value_ok j x.
Proof.
  revert st. induction lines as [|line lines IH]; intros st Hall.
  - now intros [= <-].
  - rewrite parse_lines_cons.
    destruct (parse_line st line) as [[status1 k1]|] eqn:Hline; [|discriminate].
    cbn [bind]. apply IH. destruct st as [status k].
    eapply parse_line_values_ok; eassumption.
Qed.

Lemma values_ok_init j x : parse_init.1 !! j = Some x -> value_ok j x.
Proof. cbn [fst parse_init]. rewrite lookup_empty. discriminate. Qed.

End ValueFacts.

(** X5: in the record returned by [cluster_status], no string and no item of
    a list begins with whitespace; a tuple occurs only under [cluster_id] or
    [server_id], and each of its components is non-empty and holds neither
    whitespace nor a parenthesis. *)
Theorem cluster_status_values spawn target schema status k v :
  cluster_status spawn target schema = Ok status ->
  status !! k = Some v ->
  match v with
  | VStr s => PyStr.lstrip s = s
  | VList l => Forall (fun x => PyStr.lstrip x = x) l
  | VTuple t =>
      k ∈ ["cluster_id"; "server_id"]
      /\ Forall (fun x => plain x = true /\ x <> EmptyString) t
  end.
Proof.
  intros (out & k' & _ & Hp)%cluster_status_parsed Hk.
  apply (parse_lines_values_ok _ _ _ values_ok_init Hp k v Hk).
Qed.

Lemma cluster_status_values_witness :
  "server_id" ∈ ["cluster_id"; "server_id"]
  /\ Forall (fun x => plain x = true /\ x <> EmptyString) ["1b2c"; "1b2c3d4e"].
Proof.
  apply (cluster_status_values (prints "Server ID: 1b2c (1b2c3d4e)")
           "ovnsb_db" None {[ "server_id" := VTuple ["1b2c"; "1b2c3d4e"] ]}
           "server_id" (VTuple ["1b2c"; "1b2c3d4e"])).
  - reflexivity.
  - apply lookup_singleton_eq.
Defined.

Lemma parse_line_frame st line st' j :
  parse_line st line = Ok st' -> st.2 <> j ->
  (forall key v, PyStr.split1 ":" line = (key, Some v) -> normalise_key key <> j) ->
  st'.1 !! j = st.1 !! j /\ st'.2 <> j.
Proof.
  destruct st as [status k]. cbn [fst snd]. unfold parse_line. intros Hline Hk Hkey.
  destruct (is_continuation k line).
  - destruct (status !! k) as [[s|l|t]|]; try discriminate.
    injection Hline as <-. cbn [fst snd].
    now rewrite lookup_insert_ne.
  - destruct (PyStr.contains ":" line);
      [|injection Hline as <-; now split].
    destruct (PyStr.split1 ":" line) as [k0 [v|]]; [|discriminate].
    specialize (Hkey k0 v eq_refl). cbv zeta in Hline.
    destruct (PyStr.truthy v); [destruct (bool_decide _)|];
      injection Hline as <-; cbn [fst snd]; now rewrite lookup_insert_ne.
Qed.

(** X6: a field is changed only by a line that sets it or by the
    continuation lines that follow such a line: when the cursor is not [j]
    and no line sets [j], the field [j] after the lines is the field [j]
    before them. *)
Theorem parse_lines_frame lines st st' j :
  parse_lines lines st = Ok st' -> st.2 <> j -> never_sets j lines ->
  st'.1 !! j = st.1 !! j.
Proof.
  intros Hp Hk Hnever. revert st Hp Hk.
  induction Hnever as [|line lines Hline _ IH]; intros st Hp Hk.
  - injection Hp as <-. reflexivity.
  - rewrite parse_lines_cons in Hp.
    destruct (parse_line st line) as [st1|] eqn:H1; [|discriminate].
    cbn [bind] in Hp.
    destruct (parse_line_frame _ _ _ j H1 Hk Hline) as [Heq Hk1].
    rewrite <- Heq. now apply IH.
Qed.

Lemma parse_lines_frame_witness :
  (<[ "servers" := VList ["srv-a"] ]> {[ "leader" := VStr "self" ]}
   : gmap string status_value) !! "leader"
  = ({[ "leader" := VStr "self" ]} : gmap string status_value) !! "leader".
Proof.
  refine (parse_lines_frame ["Servers:"; "  srv-a"]
            ({[ "leader" := VStr "self" ]}, "term")
            (<[ "servers" := VList ["srv-a"] ]> {[ "leader" := VStr "self" ]},
             "servers") "leader" _ _ _).
  - reflexivity.
  - discriminate.
  - repeat constructor; intros key v [= <- <-]; discriminate.
Defined.

Lemma parse_line_ok st line :
  PyStr.startswith " " line = false -> exists st', parse_line st line = Ok st'.
Proof.
  destruct st as [status k]. intros Hs. unfold parse_line, is_continuation.
  rewrite Hs, andb_false_r.
  destruct (PyStr.contains ":" line) eqn:Hc; [|eauto].
  destruct (PyStrFacts.contains_split1 _ _ Hc) as (h & t & ->). cbv zeta.
  destruct (PyStr.truthy t); [destruct (bool_decide _)|]; eauto.
Qed.

(** X7: a report in which no line begins with a space always parses: when
    the command succeeds, [cluster_status] returns a record. *)
Theorem cluster_status_parses_unindented spawn target schema out :
  ovs_appctl spawn target (status_args target schema) = Ok out ->
  Forall (fun line => PyStr.startswith " " line = false) (PyStr.splitlines out) ->
  exists status, cluster_status spawn target schema = Ok status.
Proof.
  intros Hout Hall. unfold cluster_status. rewrite Hout. cbn [bind].
  assert (Hp : forall st, exists st',
               parse_lines (PyStr.splitlines out) st = Ok st').
  { induction Hall as [|line lines Hline _ IH]; intros st; [eexists; reflexivity|].
    rewrite parse_lines_cons. destruct (parse_line_ok st line Hline) as [st1 ->].
    cbn [bind]. apply IH. }
  destruct (Hp parse_init) as [st' ->]. cbn [bind]. eauto.
Qed.

Lemma cluster_status_parses_unindented_witness :
  exists status,
    cluster_status (prints ("Role: follower" +:+ LF +:+ LF +:+ "Term: 2"))
      "ovnnb_db" None = Ok status.
Proof.
  apply (cluster_status_parses_unindented
           (prints ("Role: follower" +:+ LF +:+ LF +:+ "Term: 2")) "ovnnb_db" None
           ("Role: follower" +:+ LF +:+ LF +:+ "Term: 2")).
  - reflexivity.
  - vm_compute. repeat constructor.
Defined.

(** * The state of [ovn-northd] *)

Lemma existsb_elem_of {A : Type} (f : A -> bool) (l : list A) :
  existsb f l = true <-> exists x, x ∈ l /\ f x = true.
Proof.
  rewrite existsb_exists. split; intros (x & Hx & Hf); exists x;
    (split; [now apply list_elem_of_In | exact Hf]).
Qed.

Lemma northd_run spawn :
  _run spawn (Some <$> northd_status_argv)
  = match spawn northd_status_argv with
    | Exited rc out =>
        if rc =? 0 then Ok {| stdout := out |} else Raise (CalledProcessError rc)
    | Garbled _ => Raise UnicodeDecodeError
    | NotFound => Raise FileNotFoundError
    | NotPermitted => Raise PermissionError
    | StartFailed errno => Raise (OSError errno)
    end.
Proof.
  unfold _run.
  change (convert_args (Some <$> northd_status_argv))
    with (Ok (A := list string) northd_status_argv).
  cbv beta iota.
  destruct (spawn northd_status_argv) as [rc out| | | |]; reflexivity.
Qed.

Lemma northd_appctl spawn :
  ovs_appctl spawn "ovn-northd" [Some "status"]
  = match spawn northd_status_argv with
    | Exited rc out => if rc =? 0 then Ok out else Raise (CalledProcessError rc)
    | Garbled _ => Raise UnicodeDecodeError
    | NotFound => Raise FileNotFoundError
    | NotPermitted => Raise PermissionError
    | StartFailed errno => Raise (OSError errno)
    end.
Proof.
  unfold ovs_appctl.
  change (ovs_appctl_cmd "ovn-northd" [Some "status"])
    with (Some <$> northd_status_argv).
  rewrite northd_run.
  destruct (spawn northd_status_argv) as [rc out| | | |];
    [destruct (rc =? 0)| | | |]; reflexivity.
Qed.

(** X8: [is_northd_active] asks one command, [ovs-appctl -t ovn-northd
    status].  It returns true exactly when the command writes text, exits
    with status 0 and a line of its output begins with [Status:] and holds
    [active]; false exactly when the command writes text and exits with
    another status or no line passes; and it raises exactly the exceptions
    of the invocation that are not a [CalledProcessError]. *)
Theorem is_northd_active_outcome spawn :
  (is_northd_active spawn = Ok true <->
   exists out line,
     spawn northd_status_argv = Exited 0 out
     /\ line ∈ PyStr.splitlines out
     /\ PyStr.startswith "Status:" line = true
     /\ PyStr.contains_str "active" line = true)
  /\ (is_northd_active spawn = Ok false <->
      exists rc out,
        spawn northd_status_argv = Exited rc out
        /\ (rc <> 0 \/ forall line, line ∈ PyStr.splitlines out ->
                                    active_line line = false))
  /\ (forall e, is_northd_active spawn = Raise e <->
                (forall rc, e <> CalledProcessError rc)
                /\ _run spawn (Some <$> northd_status_argv) = Raise e).
Proof.
  unfold is_northd_active. rewrite northd_appctl, northd_run.
  destruct (spawn northd_status_argv) as [rc out|rc| | |errno].
  - destruct (rc =? 0) eqn:Hrc.
    + apply Z.eqb_eq in Hrc as ->. split; [|split].
      * split.
        -- intros [= H]. apply existsb_elem_of in H as (line & Hin & Hl).
           apply andb_prop in Hl as [? ?]. exists out, line. auto.
        -- intros (out' & line & [= <-] & Hin & Hs & Hc). f_equal.
           apply existsb_elem_of. exists line. split; [exact Hin|].
           unfold active_line. now rewrite Hs, Hc.
      * split.
        -- intros [= H]. exists 0, out. split; [reflexivity|]. right.
           intros line Hin. destruct (active_line line) eqn:Hl; [|reflexivity].
           assert (existsb active_line (PyStr.splitlines out) = true) as Ht
               by (apply existsb_elem_of; eauto).
           congruence.
        -- intros (rc & out' & [= <- <-] & [Hne|Hall]); [congruence|].
           f_equal. destruct (existsb _ _) eqn:He; [|reflexivity].
           apply existsb_elem_of in He as (line & Hin & Hl).
           rewrite (Hall line Hin) in Hl. discriminate Hl.
      * intros e. split; [discriminate | intros [_ H]; discriminate H].
    + apply Z.eqb_neq in Hrc. split; [|split].
      * split; [discriminate|].
        intros (out' & line & [= -> _] & _). congruence.
      * split; [|reflexivity]. intros _. exists rc, out. auto.
      * intros e. split; [discriminate|].
        intros [Hne [= <-]]. now destruct (Hne rc).
  - split; [|split].
    + split; [discriminate | intros (? & ? & H & _); discriminate H].
    + split; [discriminate | intros (? & ? & H & _); discriminate H].
    + intros e. split; [intros [= <-]; split; [discriminate | reflexivity]
                       | intros [_ [= <-]]; reflexivity].
  - split; [|split].
    + split; [discriminate | intros (? & ? & H & _); discriminate H].
    + split; [discriminate | intros (? & ? & H & _); discriminate H].
    + intros e. split; [intros [= <-]; split; [discriminate | reflexivity]
                       | intros [_ [= <-]]; reflexivity].
  - split; [|split].
    + split; [discriminate | intros (? & ? & H & _); discriminate H].
    + split; [discriminate | intros (? & ? & H & _); discriminate H].
    + intros e. split; [intros [= <-]; split; [discriminate | reflexivity]
                       | intros [_ [= <-]]; reflexivity].
  - split; [|split].
    + split; [discriminate | intros (? & ? & H & _); discriminate H].
    + split; [discriminate | intros (? & ? & H & _); discriminate H].
    + intros e. split; [intros [= <-]; split; [discriminate | reflexivity]
                       | intros [_ [= <-]]; reflexivity].
Qed.

Lemma is_northd_active_outcome_witness :
  is_northd_active (prints ("Status: active" +:+ LF)) = Ok true
  /\ is_northd_active (exits 1) = Ok false
  /\ is_northd_active (fun _ => Garbled 0) = Raise UnicodeDecodeError.
Proof.
  split; [|split].
  - apply (is_northd_active_outcome (prints ("Status: active" +:+ LF))).
    exists ("Status: active" +:+ LF), "Status: active".
    split; [reflexivity|]. split; [apply list_elem_of_here|].
    split; reflexivity.
  - apply (is_northd_active_outcome (exits 1)).
    exists 1, EmptyString. split; [reflexivity|]. left. discriminate.
  - apply (is_northd_active_outcome (fun _ => Garbled 0)).
    split; [discriminate | reflexivity].
Defined.

Section LineFacts.
Import PyStr PyStrFacts.

Lemma one_line_app a b : one_line (a +:+ b) = one_line a && one_line b.
Proof.
  induction a as [|c a IH]; [reflexivity|]. rewrite sapp_cons. cbn [one_line].
  now rewrite IH, andb_assoc.
Qed.

Lemma splitlines_from_one_line cur s :
  one_line s = true ->
  splitlines_from false cur s
  = if truthy (cur +:+ s) then [cur +:+ s] else [].
Proof.
  revert cur. induction s as [|c s IH]; intros cur Hs.
  - now rewrite sapp_nil_r.
  - cbn [one_line] in Hs. apply andb_prop in Hs as [Hc Hs].
    apply negb_true_iff in Hc. cbn [splitlines_from andb]. rewrite Hc.
    rewrite IH by assumption. now rewrite sapp_assoc, sapp_cons, sapp_nil_l.
Qed.

Lemma splitlines_one_line s :
  one_line s = true -> s <> EmptyString -> splitlines s = [s].
Proof.
  intros Hs Hne. unfold splitlines. rewrite splitlines_from_one_line by assumption.
  rewrite sapp_nil_l. now rewrite truthy_true.
Qed.

Lemma startswith_app p s : startswith p (p +:+ s) = true.
Proof.
  induction p as [|c p IH]; [reflexivity|]. rewrite sapp_cons.
  cbn [startswith]. now rewrite Ascii.eqb_refl, IH.
Qed.

Lemma contains_str_app p a b : contains_str p (a +:+ p +:+ b) = true.
Proof.
  induction a as [|c a IH].
  - rewrite sapp_nil_l. destruct (p +:+ b) eqn:E; cbn [contains_str];
      rewrite <- E, startswith_app; reflexivity.
  - rewrite sapp_cons. cbn [contains_str]. rewrite IH. apply orb_true_r.
Qed.

End LineFacts.

(** X9: the test for [active] is a substring test: a one-line report
    [Status:], any text, [active], any text, counts as active, whatever
    surrounds the word. *)
Theorem is_northd_active_substring spawn a b :
  spawn northd_status_argv
  = Exited 0 ("Status:" +:+ a +:+ "active" +:+ b) ->
  one_line a = true -> one_line b = true ->
  is_northd_active spawn = Ok true.
Proof.
  intros Hrun Ha Hb. unfold is_northd_active.
  rewrite northd_appctl, Hrun. cbn [Z.eqb].
  rewrite splitlines_one_line.
  - cbn [existsb]. unfold active_line.
    rewrite startswith_app, <- PyStrFacts.sapp_assoc, contains_str_app.
    reflexivity.
  - rewrite !one_line_app, Ha, Hb. reflexivity.
  - discriminate.
Qed.

Lemma is_northd_active_substring_witness :
  is_northd_active (prints "Status: inactive") = Ok true.
Proof.
  apply (is_northd_active_substring (prints "Status: inactive") " in" "");
    reflexivity.
Defined.

(** * Further properties of the table client *)

Section RowFacts.

Lemma dict_set_fresh k v d :
  Forall (fun p => key_eqb p.1 k = false) d -> dict_set k v d = d ++ [(k, v)].
Proof.
  induction 1 as [|[k' v'] d Hk _ IH]; [reflexivity|].
  cbn [dict_set app]. cbn [fst] in Hk. now rewrite Hk, IH.
Qed.

Lemma key_eqb_str_ne h h' : h <> h' -> key_eqb (JStr h) (JStr h') = false.
Proof. intros Hne. apply bool_decide_eq_false. congruence. Qed.

Lemma dict_update_fresh d (hs : list string) vals :
  NoDup hs ->
  (forall h, h ∈ hs -> Forall (fun p => key_eqb p.1 (JStr h) = false) d) ->
  dict_update d (combine (JStr <$> hs) vals) = d ++ combine (JStr <$> hs) vals.
Proof.
  intros Hnd. revert d vals.
  induction Hnd as [|h hs Hh Hnd IH]; intros d vals Hd.
  - now rewrite List.app_nil_r.
  - destruct vals as [|v vals]; [now rewrite List.app_nil_r|].
    rewrite fmap_cons. cbn [combine dict_update].
    rewrite dict_set_fresh by (apply Hd, list_elem_of_here).
    rewrite IH.
    + now rewrite <- List.app_assoc.
    + intros h' Hh'. apply Forall_app. split.
      * apply Hd. now apply list_elem_of_further.
      * constructor; [|constructor]. apply key_eqb_str_ne. intros ->. auto.
Qed.

Lemma mapM_decode_col_short good short more :
  Forall (fun v => has_payload v = true) good ->
  (length short < 2)%nat ->
  mapM decode_col (good ++ JArr short :: more) = Raise IndexError.
Proof.
  intros Hgood Hshort. induction Hgood as [|v good Hv _ IH].
  - cbn [app mapM decode_col].
    destruct short as [|a [|b short]]; [reflexivity | reflexivity|].
    cbn [length] in Hshort. lia.
  - cbn [app mapM]. rewrite IH.
    destruct v as [| | | |items|]; try reflexivity.
    cbn [has_payload] in Hv. apply bool_decide_eq_true in Hv.
    destruct items as [|a [|b items]]; cbn [length] in Hv; try lia. reflexivity.
Qed.

Lemma drain_rows_app doc pre ds rest :
  Forall2 (fun r d => decode_row doc r = Ok d) pre ds ->
  drain_rows doc (pre ++ rest)
  = (ds ++ (drain_rows doc rest).1, (drain_rows doc rest).2).
Proof.
  induction 1 as [|r d pre ds Hr _ IH]; cbn [app drain_rows].
  - now destruct (drain_rows doc rest).
  - rewrite Hr, IH. reflexivity.
Qed.

End RowFacts.

(** X10: under distinct string headings a row is an ordered mapping: its
    items are the headings paired with the decoded values, in the order of
    the headings, and the longer of the two lists is cut to the length of
    the other (a short row lacks the last headings, the values beyond the
    headings are dropped). *)
Theorem decode_row_in_heading_order doc (headings : list string) raw :
  getitem doc "headings" = Ok (JArr (JStr <$> headings)) ->
  NoDup headings ->
  Forall (fun v => has_payload v = true) raw ->
  exists vals,
    Forall2 (fun v x => decode_col v = Ok x) raw vals
    /\ decode_row doc (JArr raw) = Ok (combine (JStr <$> headings) vals)
    /\ dict_keys (combine (JStr <$> headings) vals)
       = JStr <$> take (length raw) headings.
Proof.
  intros Hh Hnd Hraw.
  destruct (decode_row_ok doc headings raw Hh Hraw) as [vals [Hf Hr]].
  exists vals. split; [exact Hf|]. split.
  - rewrite Hr, dict_update_fresh; [reflexivity | exact Hnd|].
    intros h _. constructor.
  - rewrite (Forall2_length _ _ _ Hf). unfold dict_keys.
    clear. revert vals. induction headings as [|h hs IH]; intros [|v vals];
      try reflexivity.
    rewrite fmap_cons. cbn [combine length take]. rewrite !fmap_cons.
    cbn [fst]. f_equal. apply IH.
Qed.

Lemma decode_row_in_heading_order_witness :
  exists vals,
    Forall2 (fun v x => decode_col v = Ok x)
            [JArr [JStr "uuid"; JStr "0a1b"]; JStr "eth0"] vals
    /\ decode_row two_ports (JArr [JArr [JStr "uuid"; JStr "0a1b"]; JStr "eth0"])
       = Ok (combine (JStr <$> ["_uuid"; "name"; "trunks"]) vals)
    /\ dict_keys (combine (JStr <$> ["_uuid"; "name"; "trunks"]) vals)
       = JStr <$> take 2 ["_uuid"; "name"; "trunks"].
Proof.
  apply (decode_row_in_heading_order two_ports ["_uuid"; "name"; "trunks"]
           [JArr [JStr "uuid"; JStr "0a1b"]; JStr "eth0"]).
  - reflexivity.
  - repeat constructor; rewrite ?elem_of_cons, ?elem_of_nil;
      intros H; repeat (destruct H as [H|H]; [discriminate H|]); exact H.
  - repeat constructor.
Defined.

(** X11: the rows are yielded up to the first row that holds a list of
    fewer than two elements: the iteration yields one row for each row
    before it and then raises [IndexError]; the rows after it are never
    decoded. *)
Theorem drain_stops_at_short_list
  spawn json_loads self condition cp doc
  (headings : list string) (pre : list (list json)) good short more post :
  _run spawn (find_cmd self condition) = Ok cp ->
  json_loads (stdout cp) = Some doc ->
  getitem doc "headings" = Ok (JArr (JStr <$> headings)) ->
  getitem doc "data"
  = Ok (JArr ((JArr <$> pre) ++ JArr (good ++ JArr short :: more) :: post)) ->
  Forall (Forall (fun v => has_payload v = true)) pre ->
  Forall (fun v => has_payload v = true) good ->
  (length short < 2)%nat ->
  exists rows,
    drain spawn json_loads (_find_tbl self condition) = (rows, Some IndexError)
    /\ Forall2 (fun raw r => decode_row doc (JArr raw) = Ok r) pre rows.
Proof.
  intros Hrun Hdoc Hh Hd Hpre Hgood Hshort.
  destruct (rows_decode doc headings pre Hh Hpre) as [rows Hrows].
  exists rows. split; [|apply Forall2_fmap_l in Hrows; exact Hrows].
  unfold _find_tbl, drain, start. rewrite Hrun. cbn [bind]. rewrite Hdoc.
  cbn [bind]. rewrite Hd. cbn [py_iter bind].
  rewrite (drain_rows_app _ _ _ _ Hrows). cbn [drain_rows].
  unfold decode_row at 1 2. cbn [py_iter bind].
  rewrite (mapM_decode_col_short _ _ _ Hgood Hshort). cbn [bind fst snd].
  now rewrite List.app_nil_r.
Qed.

Lemma drain_stops_at_short_list_witness :
  exists rows,
    drain (prints (json_text short_pair_in_third_row))
      (reads short_pair_in_third_row)
      (_find_tbl {| tool := "ovs-vsctl"; tbl := "bridge" |} None)
    = (rows, Some IndexError)
    /\ Forall2 (fun raw r => decode_row short_pair_in_third_row (JArr raw) = Ok r)
         [[JStr "br-int"; JArr [JStr "uuid"; JStr "1234"]];
          [JStr "br-ex"; JArr [JStr "uuid"; JStr "5678"]]] rows.
Proof.
  apply (drain_stops_at_short_list
           (prints (json_text short_pair_in_third_row))
           (reads short_pair_in_third_row)
           {| tool := "ovs-vsctl"; tbl := "bridge" |} None
           {| stdout := json_text short_pair_in_third_row |}
           short_pair_in_third_row ["name"; "_uuid"]
           [[JStr "br-int"; JArr [JStr "uuid"; JStr "1234"]];
            [JStr "br-ex"; JArr [JStr "uuid"; JStr "5678"]]]
           [JStr "br-tun"] [JStr "uuid"] []
           [JArr [JStr "br-phy"; JArr [JStr "uuid"; JStr "9abc"]]]).
  - reflexivity.
  - reflexivity.
  - reflexivity.
  - reflexivity.
  - repeat constructor.
  - repeat constructor.
  - simpl. lia.
Defined.

(** X12: the member [headings] is looked up when a row is built, not
    before: an output without [headings] and without rows iterates to the
    end with nothing yielded, and with a first row whose values decode the
    first [next] raises [KeyError] for [headings]. *)
Theorem missing_headings
  spawn json_loads self condition cp doc rows :
  _run spawn (find_cmd self condition) = Ok cp ->
  json_loads (stdout cp) = Some doc ->
  getitem doc "headings" = Raise (KeyError "headings") ->
  getitem doc "data" = Ok (JArr rows) ->
  (rows = [] ->
   next spawn json_loads (_find_tbl self condition) = Stop
   /\ drain spawn json_loads (_find_tbl self condition) = ([], None))
  /\ (forall raw rest,
        rows = JArr raw :: rest ->
        Forall (fun v => has_payload v = true) raw ->
        next spawn json_loads (_find_tbl self condition)
        = Throw (KeyError "headings")
        /\ drain spawn json_loads (_find_tbl self condition)
           = ([], Some (KeyError "headings"))).
Proof.
  intros Hrun Hdoc Hh Hd.
  assert (Hstart : start spawn json_loads self condition = Ok (doc, rows)).
  { unfold start. rewrite Hrun. cbn [bind]. rewrite Hdoc. cbn [bind].
    rewrite Hd. reflexivity. }
  unfold _find_tbl. cbn [next drain]. rewrite Hstart. split.
  - intros ->. split; reflexivity.
  - intros raw rest -> Hraw.
    destruct (mapM_decode_col raw Hraw) as [vals [Hm _]].
    assert (Hrow : decode_row doc (JArr raw) = Raise (KeyError "headings")).
    { unfold decode_row. cbn [py_iter bind]. rewrite Hm. cbn [bind].
      now rewrite Hh. }
    cbn [resume drain_rows]. rewrite Hrow. split; reflexivity.
Qed.

Lemma missing_headings_witness :
  let doc := JObj [("data", JArr [JArr [JStr "br-int"]])] in
  next (prints (json_text doc)) (reads doc)
    (_find_tbl {| tool := "ovs-vsctl"; tbl := "bridge" |} None)
  = Throw (KeyError "headings")
  /\ drain (prints (json_text doc)) (reads doc)
       (_find_tbl {| tool := "ovs-vsctl"; tbl := "bridge" |} None)
     = ([], Some (KeyError "headings")).
Proof.
  intros doc.
  apply (missing_headings (prints (json_text doc)) (reads doc)
           {| tool := "ovs-vsctl"; tbl := "bridge" |} None
           {| stdout := json_text doc |} doc [JArr [JStr "br-int"]]
           eq_refl eq_refl eq_refl eq_refl)
    with (raw := [JStr "br-int"]) (rest := []).
  - reflexivity.
  - repeat constructor.
Defined.

(** * Commands that change the host *)

Section HostFacts.

Context {H : Type}.
Variable exec : H -> list string -> proc_outcome * H.
Variable json_loads : string -> option json.

(** [for_gen] is the loop that calls [gen_next] until the generator ends. *)
Lemma for_gen_next g body h :
  for_gen exec json_loads g body h
  = match gen_next exec json_loads g h with
    | (Yield d g', h') =>
        bindM (body d) (fun _ => for_gen exec json_loads g' body) h'
    | (Stop, h') => (Ok tt, h')
    | (Throw e, h') => (Raise e, h')
    end.
Proof.
  assert (Hres : forall data rest h,
             for_rows data rest body h
             = match resume data rest with
               | Yield d g' =>
                   bindM (body d) (fun _ => for_gen exec json_loads g' body) h
               | Stop => (Ok tt, h)
               | Throw e => (Raise e, h)
               end).
  { intros data [|r rest] h0; cbn [for_rows resume]; [reflexivity|].
    destruct (decode_row data r); reflexivity. }
  destruct g as [self condition|data rest|]; cbn [for_gen gen_next next].
  - destruct (start (answers exec h) json_loads self condition)
      as [[data rows]|e]; [apply Hres | reflexivity].
  - apply Hres.
  - reflexivity.
Qed.

(** A vector of strings converts when none holds a null character, and
    raises [ValueError] otherwise. *)
Lemma convert_args_strs (argv : list string) :
  convert_args (Some <$> argv)
  = if forallb nul_free argv then Ok argv else Raise ValueError.
Proof.
  induction argv as [|a argv IH]; [reflexivity|].
  rewrite fmap_cons. cbn [convert_args forallb]. unfold nul_free at 1.
  destruct (PyStr.contains NUL a); [reflexivity|]. rewrite IH.
  cbn [negb andb]. now destruct (forallb nul_free argv).
Qed.

Lemma run_ok_nul_free spawn (argv : list string) cp :
  _run spawn (Some <$> argv) = Ok cp -> forallb nul_free argv = true.
Proof.
  unfold _run. rewrite convert_args_strs.
  destruct (forallb nul_free argv); [reflexivity | discriminate].
Qed.

Lemma after_logging (argv : list string) h log :
  forallb nul_free argv = true ->
  after (logging exec) (h, log) (Some <$> argv)
  = ((exec h argv).2, log ++ [argv]).
Proof. intros Hn. unfold after. now rewrite convert_args_strs, Hn. Qed.

Lemma run_cmd_logging (argv : list string) h log :
  forallb nul_free argv = true ->
  run_cmd (logging exec) (Some <$> argv) (h, log)
  = (_run (answers exec h) (Some <$> argv), ((exec h argv).2, log ++ [argv])).
Proof. intros Hn. unfold run_cmd. now rewrite after_logging. Qed.

(** With a null character in an argument nothing is run. *)
Lemma run_cmd_logging_nul (argv : list string) h log :
  forallb nul_free argv = false ->
  run_cmd (logging exec) (Some <$> argv) (h, log) = (Raise ValueError, (h, log)).
Proof.
  intros Hn. unfold run_cmd, after, _run. now rewrite convert_args_strs, Hn.
Qed.


Lemma start_ok_run spawn self condition x :
  start spawn json_loads self condition = Ok x ->
  exists cp, _run spawn (find_cmd self condition) = Ok cp.
Proof.
  unfold start. destruct (_run spawn (find_cmd self condition)) as [cp|];
    [eauto | discriminate].
Qed.

End HostFacts.

Section ArgFacts.
Import PyStr PyStrFacts.



Lemma link_up_nul_free port :
  forallb nul_free (link_up_argv port) = nul_free port.
Proof.
  unfold link_up_argv. cbn [forallb].
  change (nul_free "ip") with true. change (nul_free "link") with true.
  change (nul_free "set") with true. change (nul_free "up") with true.
  cbn [andb]. now rewrite !andb_true_r.
Qed.

Lemma add_port_nul_free bridge port :
  forallb nul_free (add_port_argv bridge port) = nul_free bridge && nul_free port.
Proof.
  unfold add_port_argv. cbn [forallb].
  change (nul_free "ovs-vsctl") with true. change (nul_free "add-port") with true.
  cbn [andb]. now rewrite !andb_true_r.
Qed.



End ArgFacts.

Section AddPortFacts.

Context {H : Type}.
Variable exec : H -> list string -> proc_outcome * H.
Variable json_loads : string -> option json.

Lemma add_port_eq bridge port external_id :
  add_port exec json_loads bridge port external_id
  = bindM (run_cmd exec (Some <$> link_up_argv port)) (fun _ =>
    bindM (run_cmd exec (Some <$> add_port_argv bridge port)) (fun _ =>
    match external_id with
    | Some (x :: t) =>
        for_gen exec json_loads (find ports_table ("name=" +:+ port))
          (set_external_id exec ports_table (x :: t))
    | Some [] | None => ret tt
    end)).
Proof. reflexivity. Qed.


End AddPortFacts.

Section AddPortLog.

Context {H : Type}.
Variable exec : H -> list string -> proc_outcome * H.
Variable json_loads : string -> option json.


(** X13: a command of [add_port] that fails ends it: when [ip link set]
    raises, [ovs-vsctl add-port] is not run; when [add-port] raises, nothing
    is looked up or set.  The exception is the one of the command.  The
    command that raised was run, unless its arguments did not convert: with
    a null character in the port or in the bridge the command is not
    started, and the exception is [ValueError]. *)
Theorem add_port_stops_at_failure bridge port external_id h log e :
  (_run (answers exec h) (Some <$> link_up_argv port) = Raise e ->
   add_port (logging exec) json_loads bridge port external_id (h, log)
   = (Raise e,
      if nul_free port
      then ((exec h (link_up_argv port)).2, log ++ [link_up_argv port])
      else (h, log)))
  /\ (nul_free port = false ->
      add_port (logging exec) json_loads bridge port external_id (h, log)
      = (Raise ValueError, (h, log)))
  /\ (forall cp,
        _run (answers exec h) (Some <$> link_up_argv port) = Ok cp ->
        let h1 := (exec h (link_up_argv port)).2 in
        (_run (answers exec h1) (Some <$> add_port_argv bridge port) = Raise e ->
         add_port (logging exec) json_loads bridge port external_id (h, log)
         = (Raise e,
            if nul_free bridge
            then ((exec h1 (add_port_argv bridge port)).2,
                  log ++ [link_up_argv port; add_port_argv bridge port])
            else (h1, log ++ [link_up_argv port])))
        /\ (nul_free bridge = false ->
            add_port (logging exec) json_loads bridge port external_id (h, log)
            = (Raise ValueError, (h1, log ++ [link_up_argv port])))).
Proof.
  rewrite add_port_eq.
  assert (Hnul : forall argv st,
             forallb nul_free argv = false ->
             _run st (Some <$> argv) = Raise ValueError).
  { intros argv st Hn. unfold _run. now rewrite convert_args_strs, Hn. }
  split; [|split].
  - intros Hlink. unfold bindM at 1.
    destruct (nul_free port) eqn:Hp.
    + rewrite run_cmd_logging by now rewrite link_up_nul_free.
      now rewrite Hlink.
    + rewrite run_cmd_logging_nul by now rewrite link_up_nul_free.
      rewrite Hnul in Hlink by now rewrite link_up_nul_free.
      now injection Hlink as <-.
  - intros Hp. unfold bindM at 1.
    rewrite run_cmd_logging_nul by now rewrite link_up_nul_free.
    reflexivity.
  - intros cp Hlink h1.
    pose proof (run_ok_nul_free _ _ _ Hlink) as Hargs.
    assert (Hp : nul_free port = true) by now rewrite <- link_up_nul_free.
    split.
    + intros Hadd.
      unfold bindM at 1. rewrite run_cmd_logging, Hlink by exact Hargs.
      unfold bindM at 1. fold h1.
      destruct (nul_free bridge) eqn:Hb.
      * rewrite run_cmd_logging by now rewrite add_port_nul_free, Hb, Hp.
        rewrite Hadd. now rewrite <- List.app_assoc.
      * rewrite run_cmd_logging_nul by now rewrite add_port_nul_free, Hb.
        rewrite Hnul in Hadd by now rewrite add_port_nul_free, Hb.
        now injection Hadd as <-.
    + intros Hb.
      unfold bindM at 1. rewrite run_cmd_logging, Hlink by exact Hargs.
      unfold bindM at 1. fold h1.
      rewrite run_cmd_logging_nul by now rewrite add_port_nul_free, Hb.
      reflexivity.
Qed.

(** X14: without an external id ([None] or the empty tuple) [add_port] runs
    two commands, [ip link set <port> up] and then
    [ovs-vsctl add-port <bridge> <port>], and no other. *)
Theorem add_port_without_external_id bridge port external_id h log cp1 cp2 :
  external_id = None \/ external_id = Some [] ->
  _run (answers exec h) (Some <$> link_up_argv port) = Ok cp1 ->
  let h1 := (exec h (link_up_argv port)).2 in
  _run (answers exec h1) (Some <$> add_port_argv bridge port) = Ok cp2 ->
  add_port (logging exec) json_loads bridge port external_id (h, log)
  = (Ok tt, ((exec h1 (add_port_argv bridge port)).2,
             log ++ [link_up_argv port; add_port_argv bridge port])).
Proof.
  intros Hext Hlink h1 Hadd. rewrite add_port_eq.
  unfold bindM at 1.
  rewrite run_cmd_logging, Hlink by exact (run_ok_nul_free _ _ _ Hlink).
  unfold bindM at 1.
  rewrite run_cmd_logging by exact (run_ok_nul_free _ _ _ Hadd).
  fold h1. rewrite Hadd.
  rewrite <- List.app_assoc. destruct Hext as [-> | ->]; reflexivity.
Qed.


End AddPortLog.

Section AddPortBody.

Context {H : Type}.
Variable exec : H -> list string -> proc_outcome * H.
Variable json_loads : string -> option json.

(** X16: an exception of the loop body comes after the port was added and
    before anything is set: when the first row that [find] yields has no
    [_uuid], [add_port] raises [KeyError]; when it has one and the external
    id is a tuple of one element, it raises [IndexError].  In both cases
    the commands run are the link, the add-port and the find, and no
    other. *)
Theorem add_port_loop_body_failure bridge port x t h log d ds oe cp1 cp2 :
  _run (answers exec h) (Some <$> link_up_argv port) = Ok cp1 ->
  let h1 := (exec h (link_up_argv port)).2 in
  _run (answers exec h1) (Some <$> add_port_argv bridge port) = Ok cp2 ->
  let h2 := (exec h1 (add_port_argv bridge port)).2 in
  drain (answers exec h2) json_loads (find ports_table ("name=" +:+ port))
  = (d :: ds, oe) ->
  let ran := ((exec h2 (find_port_argv port)).2,
              log ++ [link_up_argv port; add_port_argv bridge port;
                      find_port_argv port]) in
  (row_getitem d "_uuid" = Raise (KeyError "_uuid") ->
   add_port (logging exec) json_loads bridge port (Some (x :: t)) (h, log)
   = (Raise (KeyError "_uuid"), ran))
  /\ (forall u, row_getitem d "_uuid" = Ok u -> t = [] ->
        add_port (logging exec) json_loads bridge port (Some (x :: t)) (h, log)
        = (Raise IndexError, ran)).
Proof.
  intros Hlink h1 Hadd h2 Hdrain ran.
  assert (Hloop : forall e,
             (forall st, set_external_id (logging exec) ports_table (x :: t) d st
                         = (Raise e, st)) ->
             add_port (logging exec) json_loads bridge port (Some (x :: t)) (h, log)
             = (Raise e, ran)).
  { intros e Hbody. rewrite add_port_eq.
    unfold bindM at 1.
    rewrite run_cmd_logging, Hlink by exact (run_ok_nul_free _ _ _ Hlink).
    unfold bindM at 1.
    rewrite run_cmd_logging by exact (run_ok_nul_free _ _ _ Hadd).
    fold h1. rewrite Hadd. fold h2.
    unfold find, _find_tbl in *. cbn [for_gen drain] in *.
    change (answers (logging exec)
              (h2, (log ++ [link_up_argv port]) ++ [add_port_argv bridge port]))
      with (answers exec h2).
    destruct (start (answers exec h2) json_loads ports_table
                (Some ("name=" +:+ port))) as [[doc rows]|e'] eqn:Hstart;
      [|discriminate].
    destruct (start_ok_run _ _ _ _ _ Hstart) as [cp Hfind].
    change (find_cmd ports_table (Some ("name=" +:+ port)))
      with (Some <$> find_port_argv port) in Hfind |- *.
    rewrite after_logging by exact (run_ok_nul_free _ _ _ Hfind).
    destruct rows as [|r rows]; [discriminate|]. cbn [drain_rows for_rows] in *.
    destruct (decode_row doc r) as [d'|]; [|discriminate].
    destruct (drain_rows doc rows) as [ds' oe']. injection Hdrain as -> _ _.
    unfold bindM at 1. rewrite Hbody. unfold ran.
    do 2 f_equal. now rewrite <- !List.app_assoc. }
  split.
  - intros Hu. apply Hloop. intros st. unfold set_external_id.
    unfold lift at 1. unfold bindM at 1. now rewrite Hu.
  - intros u Hu ->. apply Hloop. intros st. unfold set_external_id.
    unfold lift at 1. unfold bindM at 1. rewrite Hu. reflexivity.
Qed.

End AddPortBody.

Lemma add_port_stops_at_failure_witness :
  add_port (logging (stateless (exits 1))) (reads two_ports) "br-int" "eth0" None
    (tt, [])
  = (Raise (CalledProcessError 1), (tt, [link_up_argv "eth0"]))
  /\ add_port (logging (stateless (refuses "ovs-vsctl"))) (reads two_ports)
       "br-int" "eth0" (Some ["k"; "v"]) (tt, [])
     = (Raise (CalledProcessError 1),
        (tt, [link_up_argv "eth0"; add_port_argv "br-int" "eth0"]))
  /\ add_port (logging (stateless (prints ""))) (reads two_ports)
       "br-int" (String NUL "eth0") None (tt, [])
     = (Raise ValueError, (tt, [])).
Proof.
  split; [|split].
  - refine (proj1 (add_port_stops_at_failure (stateless (exits 1))
                     (reads two_ports) "br-int" "eth0" None tt []
                     (CalledProcessError 1)) _).
    reflexivity.
  - refine (proj1 (proj2 (proj2 (add_port_stops_at_failure
                                   (stateless (refuses "ovs-vsctl"))
                                   (reads two_ports) "br-int" "eth0"
                                   (Some ["k"; "v"]) tt []
                                   (CalledProcessError 1)))
                     {| stdout := EmptyString |} _) _);
      reflexivity.
  - refine (proj1 (proj2 (add_port_stops_at_failure (stateless (prints ""))
                            (reads two_ports) "br-int" (String NUL "eth0")
                            None tt [] ValueError)) _).
    reflexivity.
Defined.

Lemma add_port_without_external_id_witness :
  add_port (logging (stateless (prints ""))) (reads two_ports) "br-int" "eth0"
    (Some []) (tt, [])
  = (Ok tt, (tt, [link_up_argv "eth0"; add_port_argv "br-int" "eth0"])).
Proof.
  apply (add_port_without_external_id (stateless (prints "")) (reads two_ports)
           "br-int" "eth0" (Some []) tt []
           {| stdout := EmptyString |} {| stdout := EmptyString |});
    [right; reflexivity | reflexivity | reflexivity].
Defined.


Lemma add_port_loop_body_failure_witness :
  add_port (logging (stateless (prints (json_text two_ports))))
    (reads two_ports) "br-int" "eth0" (Some ["charm"]) (tt, [])
  = (Raise IndexError,
     (tt, [link_up_argv "eth0"; add_port_argv "br-int" "eth0";
           find_port_argv "eth0"])).
Proof.
  refine (proj2 (add_port_loop_body_failure
                   (stateless (prints (json_text two_ports))) (reads two_ports)
                   "br-int" "eth0" "charm" [] tt []
                   [(JStr "_uuid", JStr "0a1b"); (JStr "name", JStr "eth0");
                    (JStr "trunks", JArr [])]
                   [[(JStr "_uuid", JStr "2c3d"); (JStr "name", JStr "eth1");
                     (JStr "trunks", JArr [JInt 10; JInt 20])]]
                   None {| stdout := json_text two_ports |}
                   {| stdout := json_text two_ports |} _ _ _)
                (JStr "0a1b") _ _).
  - reflexivity.
  - reflexivity.
  - vm_compute. reflexivity.
  - reflexivity.
  - reflexivity.
Defined.

Section PortListFacts.
Import PyStr PyStrFacts.

Lemma splitlines_from_lines after_cr cur s :
  one_line cur = true ->
  Forall (fun l => one_line l = true) (splitlines_from after_cr cur s).
Proof.
  revert after_cr cur. induction s as [|c s IH]; intros after_cr cur Hcur;
    cbn [splitlines_from].
  - destruct (truthy cur); repeat constructor. exact Hcur.
  - destruct (after_cr && (code c =? 10)%N); [now apply IH|].
    destruct (is_linebreak c) eqn:Hc.
    + constructor; [exact Hcur | now apply IH].
    + apply IH. rewrite one_line_app, Hcur. cbn [one_line]. now rewrite Hc.
Qed.

End PortListFacts.

(** X17: the names that [list_ports] returns are the lines of the output of
    [ovs-vsctl list-ports <bridge>]: none of them holds a line boundary. *)
Theorem list_ports_names {H : Type} (exec : H -> list string -> proc_outcome * H)
  bridge h names h' :
  list_ports exec bridge h = (Ok names, h') ->
  (exists out,
     (exec h ["ovs-vsctl"; "list-ports"; bridge]).1 = Exited 0 out
     /\ names = PyStr.splitlines out)
  /\ Forall (fun name => one_line name = true) names.
Proof.
  unfold list_ports, bindM, run_cmd, _run, answers.
  change [Some "ovs-vsctl"; Some "list-ports"; Some bridge]
    with (Some <$> ["ovs-vsctl"; "list-ports"; bridge]).
  rewrite convert_args_strs.
  destruct (forallb nul_free ["ovs-vsctl"; "list-ports"; bridge]);
    [|discriminate].
  destruct (exec h ["ovs-vsctl"; "list-ports"; bridge]).1 as [rc out| | | |];
    try discriminate.
  destruct (rc =? 0) eqn:Hrc; [|discriminate].
  apply Z.eqb_eq in Hrc as ->. cbn [ret stdout]. intros [= <- _]. split.
  - exists out. split; reflexivity.
  - now apply splitlines_from_lines.
Qed.

Lemma list_ports_names_witness :
  (exists out,
     (stateless (prints ("eth0" +:+ LF +:+ "eth1" +:+ LF)) tt
        ["ovs-vsctl"; "list-ports"; "br-int"]).1 = Exited 0 out
     /\ ["eth0"; "eth1"] = PyStr.splitlines out)
  /\ Forall (fun name => one_line name = true) ["eth0"; "eth1"].
Proof.
  apply (list_ports_names (stateless (prints ("eth0" +:+ LF +:+ "eth1" +:+ LF)))
           "br-int" tt ["eth0"; "eth1"] tt).
  reflexivity.
Defined.
